(** * Ticket analyzer: similarity fan-out, category classifier and ticket store

    A shallow embedding of [TicketAnalyzer] (Ollamatest.py) and the
    properties of its specification.

    - Python strings are [string]s whose characters are code points below 256.
    - Python floats are the kernel's binary64 floats ([PrimFloat.float]).
    - Values decoded from JSON are the inductive [json]; [JNull] is [None].
    - An HTTP attempt is answered by an oracle giving its [outcome]; the
      functions return, next to their value, the trace of the requests they
      posted and of the pauses they made. *)

From Stdlib Require Import ZArith NArith Ascii String PrimFloat Bool Lia DecimalString.
From stdpp Require Import base option list.

Local Open Scope list_scope.
Local Open Scope string_scope.

(** ** Python string operations *)

Module PyStr.

Definition ord (c : ascii) : N := N_of_ascii c.

Definition one_of (codes : list N) (c : ascii) : bool :=
  existsb (N.eqb (ord c)) codes.

(** [str.isspace] on the code points below 256: the characters removed by
    [str.strip()]. *)
Definition is_space : ascii -> bool :=
  one_of [9; 10; 11; 12; 13; 28; 29; 30; 31; 32; 133; 160]%N.

(** The line boundaries of [str.splitlines()] below 256. *)
Definition is_linebreak : ascii -> bool :=
  one_of [10; 11; 12; 13; 28; 29; 30; 133]%N.

Definition is_empty (s : string) : bool :=
  match s with EmptyString => true | String _ _ => false end.

Fixpoint lstrip (s : string) : string :=
  match s with
  | EmptyString => EmptyString
  | String c rest => if is_space c then lstrip rest else s
  end.

Fixpoint rstrip (s : string) : string :=
  match s with
  | EmptyString => EmptyString
  | String c rest =>
      let r := rstrip rest in
      if is_space c && is_empty r then EmptyString else String c r
  end.

(** [s.strip()] *)
Definition strip (s : string) : string := rstrip (lstrip s).

(** [s.startswith(prefix)] *)
Fixpoint startswith (prefix s : string) : bool :=
  match prefix, s with
  | EmptyString, _ => true
  | String _ _, EmptyString => false
  | String p prefix', String c s' => Ascii.eqb p c && startswith prefix' s'
  end.

(** [s.replace(old, new)] for a non-empty [old]: the occurrences of [old]
    are replaced from left to right, without overlap. [skip] counts the
    characters of a matched occurrence that are still to be dropped. *)
Fixpoint replace_from (old new : string) (skip : nat) (s : string) : string :=
  match s with
  | EmptyString => EmptyString
  | String c rest =>
      match skip with
      | S k => replace_from old new k rest
      | O =>
          if startswith old s
          then new ++ replace_from old new (String.length old - 1) rest
          else String c (replace_from old new 0 rest)
      end
  end.

Definition replace (old new s : string) : string := replace_from old new 0 s.

(** [str.lower()] on the code points below 256. *)
Definition lower_char (c : ascii) : ascii :=
  let n := ord c in
  if ((65 <=? n) && (n <=? 90) || (192 <=? n) && (n <=? 214)
      || (216 <=? n) && (n <=? 222))%N
  then ascii_of_N (n + 32) else c.

Fixpoint lower (s : string) : string :=
  match s with
  | EmptyString => EmptyString
  | String c rest => String (lower_char c) (lower rest)
  end.

(** [s.splitlines()]: [cur] is the line being read. A carriage return
    followed by a line feed is one boundary; no empty line is produced
    after a final boundary. *)
Fixpoint splitlines_from (cur : string) (s : string) : list string :=
  match s with
  | EmptyString => if is_empty cur then [] else [cur]
  | String c rest =>
      if is_linebreak c then
        cur :: match rest with
               | String c' rest' =>
                   if (ord c =? 13)%N && (ord c' =? 10)%N
                   then splitlines_from EmptyString rest'
                   else splitlines_from EmptyString rest
               | EmptyString => splitlines_from EmptyString rest
               end
      else splitlines_from (cur ++ String c EmptyString) rest
  end.

Definition splitlines (s : string) : list string := splitlines_from EmptyString s.

(** [s.split(sep)] for a one-character separator. *)
Fixpoint split (sep : ascii) (s : string) : list string :=
  match s with
  | EmptyString => [EmptyString]
  | String c rest =>
      if Ascii.eqb c sep then EmptyString :: split sep rest
      else match split sep rest with
           | h :: t => String c h :: t
           | [] => [String c EmptyString]
           end
  end.

(** [s.split(sep, 1)] for a one-character separator: at most one cut. *)
Fixpoint split1 (sep : ascii) (s : string) : list string :=
  match s with
  | EmptyString => [EmptyString]
  | String c rest =>
      if Ascii.eqb c sep then [EmptyString; rest]
      else match split1 sep rest with
           | h :: t => String c h :: t
           | [] => [String c EmptyString]
           end
  end.

Definition nl : string := String (ascii_of_N 10) EmptyString.
Definition cr : string := String (ascii_of_N 13) EmptyString.

End PyStr.

Import PyStr.

(** ** Values decoded from JSON, exceptions *)

#[warning="-register-all"]
Inductive json : Type :=
| JNull
| JBool (b : bool)
| JInt (n : Z)
| JFloat (x : float)
| JStr (s : string)
| JArr (items : list json)
| JObj (fields : list (string * json)).

(** [type(v).__name__] *)
Definition type_name (v : json) : string :=
  match v with
  | JNull => "NoneType"
  | JBool _ => "bool"
  | JInt _ => "int"
  | JFloat _ => "float"
  | JStr _ => "str"
  | JArr _ => "list"
  | JObj _ => "dict"
  end.

(** [bool(v)], the test of [if v:] and [not v]. *)
Definition truthy (v : json) : bool :=
  match v with
  | JNull => false
  | JBool b => b
  | JInt n => negb (n =? 0)%Z
  | JFloat x => negb (PrimFloat.eqb x 0%float)
  | JStr s => negb (is_empty s)
  | JArr items => match items with [] => false | _ => true end
  | JObj fields => match fields with [] => false | _ => true end
  end.

Inductive exn : Type :=
| AttributeError (msg : string)
| TypeError (msg : string)
| IndexError (msg : string)
| IntegrityError (msg : string).

(** [str(e)] *)
Definition str_of_exn (e : exn) : string :=
  match e with
  | AttributeError msg | TypeError msg | IndexError msg | IntegrityError msg => msg
  end.

(** The result of code that may raise. *)
Inductive res (A : Type) : Type :=
| Ret (a : A)
| Raise (e : exn).
Arguments Ret {A} a.
Arguments Raise {A} e.

#[global] Instance res_bind : MBind res := fun A B k m =>
  match m with
  | Ret a => k a
  | Raise e => Raise e
  end.

Definition no_attribute {A : Type} (v : json) (name : string) : res A :=
  Raise (AttributeError ("'" ++ type_name v ++ "' object has no attribute '" ++ name ++ "'")).

(** The items of a dict: one binding for each key. *)
Fixpoint dict_lookup (fields : list (string * json)) (key : string) : option json :=
  match fields with
  | [] => None
  | (k, v) :: rest => if String.eqb k key then Some v else dict_lookup rest key
  end.

(** [v.get(key, dflt)] *)
Definition py_get (v : json) (key : string) (dflt : json) : res json :=
  match v with
  | JObj fields => Ret (default dflt (dict_lookup fields key))
  | _ => no_attribute v "get"
  end.

(** The receiver of a string method [v.name(...)]. *)
Definition str_receiver (v : json) (name : string) : res string :=
  match v with
  | JStr s => Ret s
  | _ => no_attribute v name
  end.

(** [parts[i]] *)
Definition py_index (parts : list string) (i : nat) : res string :=
  match parts !! i with
  | Some s => Ret s
  | None => Raise (IndexError "list index out of range")
  end.

(** ** The text-generation backend *)

(** What one POST to [/api/generate] comes to: the three failure kinds, or
    the decoded JSON body of a successful response. *)
Inductive outcome : Type :=
| Timeout
| Unreachable
| BackendError (msg : string)
| Reply (data : json).

Inductive event : Type :=
| Post (prompt : string) (timeout : Z)
| Sleep (seconds : Z).

#[warning="-inexact-float"]
Definition SIMILARITY_THRESHOLD : float := 0.7%float.
(** [str(SIMILARITY_THRESHOLD)] *)
Definition SIMILARITY_THRESHOLD_str : string := "0.7".

Definition max_retries : nat := 3.
Definition timeout : Z := 60.

(** ** get_solution *)

Definition solution_prompt (ticket_id description : string) : string :=
  "You are a support agent. Given the following ticket, determine if it is a repeat of a previous issue. " ++
  "If yes, provide the old ticket ID and a brief solution. If not, generate a concise solution for the new ticket." ++ nl ++ nl ++
  "Ticket ID: " ++ ticket_id ++ nl ++ "Description: " ++ description ++ nl ++ nl ++
  "Respond in the format:" ++ nl ++
  "REPEAT: <yes/no>" ++ nl ++ "OLD_TICKET_ID: <id if repeat, else N/A>" ++ nl ++ "SOLUTION: <solution>".

(** Lines 101-109, on the decoded body. *)
Definition solution_of_body (response_data : json) : res string :=
  response ← py_get response_data "response" JNull;
  if negb (truthy response) then Ret "Error: Empty response from API"
  else
    text ← str_receiver response "splitlines";
    match List.find (startswith "SOLUTION:") (splitlines text) with
    | Some line => Ret (strip (replace "SOLUTION:" EmptyString line))
    | None => Ret (strip text)
    end.

(** [reply n] answers the n-th request of the call. *)
Definition get_solution (reply : nat -> outcome) (ticket_id description : string)
  : string * list event :=
  let value :=
    match reply 0 with
    | Reply response_data =>
        match solution_of_body response_data with
        | Ret s => s
        | Raise e => "Error getting solution: " ++ str_of_exn e
        end
    | Timeout => "Error: Request timed out. Please check if Ollama server is running."
    | Unreachable =>
        "Error: Could not connect to Ollama server. Please verify the server is running and accessible."
    | BackendError msg => "Error getting solution: " ++ msg
    end in
  (value, [Post (solution_prompt ticket_id description) 60]).

(** ** fetch_similarity *)

Definition similarity_prompt (new_description ticket_id existing_description : string) : string :=
  "You are a support agent. Compare the following two tickets and determine their similarity (0 to 1). " ++
  "If they are similar (similarity > " ++ SIMILARITY_THRESHOLD_str ++
  "), provide the similarity score and the solution for the existing ticket. " ++
  "Otherwise, just provide the similarity score." ++ nl ++ nl ++
  "New Ticket: " ++ new_description ++ nl ++
  "Existing Ticket (ID: " ++ ticket_id ++ "): " ++ existing_description ++ nl ++ nl ++
  "Respond in the format:" ++ nl ++
  "SIMILARITY: <score>" ++ nl ++ "SOLUTION: <solution if similar, else N/A>".

(** The loop [for attempt in range(max_retries)] of fetch_similarity. The
    value is the returned triple, or [None] when the loop ends without a
    [return]; a failed call returns [JNull] (Python's [None]) as its result. *)
Fixpoint similarity_attempts (reply : nat -> outcome) (prompt ticket_id existing_description : string)
    (attempts : list nat) : option (string * string * json) * list event :=
  match attempts with
  | [] => (None, [])
  | attempt :: rest =>
      match reply attempt with
      | Reply data => (Some (ticket_id, existing_description, data), [Post prompt timeout])
      | Timeout =>
          if Nat.ltb attempt (max_retries - 1) then
            let '(r, tr) := similarity_attempts reply prompt ticket_id existing_description rest in
            (r, Post prompt timeout :: Sleep 1 :: tr)
          else (Some (ticket_id, existing_description, JNull), [Post prompt timeout])
      | Unreachable | BackendError _ =>
          if Nat.ltb attempt (max_retries - 1) then
            let '(r, tr) := similarity_attempts reply prompt ticket_id existing_description rest in
            (r, Post prompt timeout :: Sleep 1 :: tr)
          else (Some (ticket_id, existing_description, JNull), [Post prompt timeout])
      end
  end.

Definition fetch_similarity (reply : nat -> outcome)
    (new_description ticket_id existing_description : string)
  : option (string * string * json) * list event :=
  similarity_attempts reply (similarity_prompt new_description ticket_id existing_description)
    ticket_id existing_description (seq 0 max_retries).

(** ** get_category *)

Definition categories_list : string :=
  "Hardware, Software, Network, Email, Login/Access, Peripheral, Performance, Security, Printer, Database, " ++
  "Server, Cloud Services, Backup/Recovery, Application Support, UI/UX Bug, Mobile Device, Internet Connectivity, " ++
  "Power Supply, Operating System, File System, Permissions, Malware/Virus, Phishing, Patch Management, VPN, DNS, " ++
  "Firewall, Proxy, Storage, Device Configuration, Account Management, Password Reset, Multi-Factor Authentication, " ++
  "Licensing, Deployment, Installation, Update Issues, System Crash, Blue Screen, Boot Failure, Slow Boot, " ++
  "Application Crash, Data Loss, Sync Issues, Drive Mapping, Network Drive, Printer Driver, Monitor Display, " ++
  "Keyboard/Mouse Issue, Touchscreen Problem, Battery Issue, BIOS/UEFI, Disk Errors, Network Cable Issue, " ++
  "Wi-Fi Signal Issue, Port Blocked, Email Spam, Email Configuration, Mailbox Full, Shared Folder Issue, " ++
  "Remote Desktop, Software Compatibility, Software Activation, Virtual Machine Issue, Cloud Sync, SaaS Access, " ++
  "Hosting Issue, SSL Certificate, Configuration Error, Scheduler Issue, Cron Job, API Error, Integration Issue, " ++
  "Data Migration, Report Generation, Analytics Error, Dashboard Issue, Backup Disk Full, Restore Failure, " ++
  "Access Denied, User Provisioning, System Freeze, Thermal Overheating, Resource Exhaustion, Kernel Panic, " ++
  "Registry Error, Log File Issue, Proxy Authentication, Wireless Adapter, IP Conflict, Bandwidth Throttling, " ++
  "QoS Issue, Cloud Storage Quota, Cloud Login Issue, Mobile App Crash, Mobile Sync Issue, UX Feedback, " ++
  "Documentation Error, Unsupported Feature, Version Mismatch, Plugin Error, Browser Compatibility, Cross-Site Error, " ++
  "Database Timeout, Connection Pool Error, Latency Issue, Packet Loss, Audit Log, Encryption Problem, " ++
  "Certificate Expired, Compliance Violation".

Definition categories : list string := map strip (split "," categories_list).

Definition category_prompt (ticket_id description : string) : string :=
  "You are an expert IT support agent. Given the ticket description below, select the single most appropriate category from the provided list. " ++
  "Choose only one category and do not invent new categories. Respond only with the format:" ++ nl ++
  "CATEGORY: <category from the list below>" ++ nl ++ nl ++
  "Categories:" ++ nl ++ categories_list ++ nl ++ nl ++
  "Ticket ID: " ++ ticket_id ++ nl ++ "Description: " ++ description ++ nl.

(** The inner [for valid in categories] with its [else]. *)
Definition resolve_category (category_candidate : string) : string :=
  match List.find (fun valid => String.eqb (lower category_candidate) (lower valid)) categories with
  | Some valid => valid
  | None => "Uncategorized"
  end.

(** The loop [for line in lines] of lines 335-348. *)
Fixpoint category_of_lines (lines : list string) : res string :=
  match lines with
  | [] => Ret "Uncategorized"
  | line :: rest =>
      if startswith "category:" (lower (strip line)) then
        after ← py_index (split1 ":" line) 1;
        Ret (resolve_category (strip after))
      else category_of_lines rest
  end.

(** Lines 329-349, on the decoded body. *)
Definition category_of_body (response_data : json) : res string :=
  response ← py_get response_data "response" JNull;
  if negb (truthy response) then Ret "Uncategorized"
  else
    text ← str_receiver response "splitlines";
    category_of_lines (splitlines text).

(** The loop [for attempt in range(max_retries)] of get_category; [None] is
    the value of a call whose loop ends without a [return]. *)
Fixpoint category_attempts (reply : nat -> outcome) (prompt : string) (attempts : list nat)
  : option string * list event :=
  match attempts with
  | [] => (None, [])
  | attempt :: rest =>
      match reply attempt with
      | Reply response_data =>
          (Some match category_of_body response_data with
                | Ret category => category
                | Raise _ => "Uncategorized"
                end,
           [Post prompt timeout])
      | Timeout =>
          if Nat.ltb attempt (max_retries - 1) then
            let '(r, tr) := category_attempts reply prompt rest in
            (r, Post prompt timeout :: Sleep 5 :: tr)
          else (Some "Uncategorized", [Post prompt timeout])
      | Unreachable => (Some "Uncategorized", [Post prompt timeout])
      | BackendError _ => (Some "Uncategorized", [Post prompt timeout])
      end
  end.

Definition get_category (reply : nat -> outcome) (ticket_id description : string)
  : option string * list event :=
  category_attempts reply (category_prompt ticket_id description) (seq 0 max_retries).

(** ** The ticket store *)

(** A row of the table [tickets]. *)
Record ticket : Type := {
  t_id : string;
  t_description : string;
  t_model : string;
  t_categories : string;
  t_solution : string;
  t_timestamp : string;
  t_similarity_group : Z
}.

(** [SELECT * FROM tickets WHERE id = ?] followed by [fetchone()]. *)
Definition select_by_id (db : list ticket) (ticket_id : string) : option ticket :=
  List.find (fun t => String.eqb (t_id t) ticket_id) db.

(** [SELECT id, description FROM tickets] followed by [fetchall()]. *)
Definition select_id_description (db : list ticket) : list (string * string) :=
  map (fun t => (t_id t, t_description t)) db.

(** [INSERT INTO tickets ...] and [commit()]; [id] is the primary key. *)
Definition insert (db : list ticket) (row : ticket) : res (list ticket) :=
  match select_by_id db (t_id row) with
  | Some _ => Raise (IntegrityError "UNIQUE constraint failed: tickets.id")
  | None => Ret (db ++ [row])%list
  end.

(** ** find_similar_tickets and add_ticket *)

(** An element of [similar_tickets]: the dict with the keys [id],
    [description], [solution] and [similarity]. *)
Record similar_ticket : Type := {
  sim_id : string;
  sim_description : string;
  sim_solution : option string;
  sim_similarity : float
}.

(** The replies of the backend during one [add_ticket]: to attempt [n] of
    the comparison with the [i]-th stored ticket, and to request [n] of the
    solution lookup. *)
Record backend : Type := {
  similarity_reply : nat -> nat -> outcome;
  solution_reply : nat -> outcome
}.

(** [tasks] and the [results] of [asyncio.gather] on them: one call of
    fetch_similarity for each ticket of the snapshot; task [i] is answered by
    [reply i]. The results come in the order of the tasks. *)
Definition gather_similarity (tickets : list (string * string)) (reply : nat -> nat -> outcome)
    (new_description : string) : list (option (string * string * json) * list event) :=
  imap (fun i '(ticket_id, description) =>
          fetch_similarity (reply i) new_description ticket_id description)
       tickets.

Section Analyzer.

(** Python's [float(s)] on a string; [None] when it raises. *)
Variable py_float : string -> option float.

(** The body of [for line in response_text.splitlines()], lines 185-191. *)
Definition parse_line (fields : option float * option string) (line : string)
  : option float * option string :=
  let '(similarity_score, solution) := fields in
  let similarity_score :=
    if startswith "SIMILARITY:" line
    then py_float (strip (replace "SIMILARITY:" EmptyString line))
    else similarity_score in
  let solution :=
    if startswith "SOLUTION:" line
    then Some (strip (replace "SOLUTION:" EmptyString line))
    else solution in
  (similarity_score, solution).

(** Lines 182-191: the fields read from a reply text. *)
Definition parse_response (response_text : string) : option float * option string :=
  fold_left parse_line (splitlines response_text) (None, None).

(** Lines 192-198. *)
Definition append_if_similar (similar_tickets : list similar_ticket)
    (ticket_id existing_description : string) (fields : option float * option string)
  : list similar_ticket :=
  let '(similarity_score, solution) := fields in
  match similarity_score with
  | Some score =>
      if PrimFloat.ltb SIMILARITY_THRESHOLD score
      then (similar_tickets ++
            [{| sim_id := ticket_id; sim_description := existing_description;
                sim_solution := solution; sim_similarity := score |}])%list
      else similar_tickets
  | None => similar_tickets
  end.

(** The loop of lines 179-198 over the gathered results. An element [None]
    is the value of a task that returned nothing: it cannot be unpacked. *)
Fixpoint results_loop (results : list (option (string * string * json)))
    (similar_tickets : list similar_ticket) : res (list similar_ticket) :=
  match results with
  | [] => Ret similar_tickets
  | None :: _ => Raise (TypeError "cannot unpack non-iterable NoneType object")
  | Some (ticket_id, existing_description, result) :: rest =>
      if truthy result then
        response ← py_get result "response" (JStr EmptyString);
        text ← str_receiver response "strip";
        results_loop rest
          (append_if_similar similar_tickets ticket_id existing_description
             (parse_response (strip text)))
      else results_loop rest similar_tickets
  end.

(** The value is the returned list; the trace has one entry for each task
    given to [asyncio.gather], in the order of the tasks. *)
Definition find_similar_tickets (db : list ticket) (reply : nat -> nat -> outcome)
    (new_description : string) : res (list similar_ticket) * list (list event) :=
  let tickets := select_id_description db in
  match tickets with
  | [] => (Ret [], [])
  | _ :: _ =>
      let results := gather_similarity tickets reply new_description in
      (results_loop (map fst results) [], map snd results)
  end.

(** [model] is [self.DEFAULT_MODEL] and [now] the formatted
    [datetime.now()]. The value is the returned flag, the store after the
    call, and the traces of the backend calls made. *)
Definition add_ticket (db : list ticket) (api : backend) (model now : string)
    (ticket_id description category : string) : bool * list ticket * list (list event) :=
  match select_by_id db ticket_id with
  | Some _ => (false, db, [])
  | None =>
      let '(found, calls) := find_similar_tickets db (similarity_reply api) description in
      match found with
      | Raise _ => (false, db, calls)
      | Ret similar_tickets =>
          let '(solution, calls) :=
            match similar_tickets with
            | first :: _ =>
                (match sim_solution first with
                 | Some s => if is_empty s then "No solution found" else s
                 | None => "No solution found"
                 end, calls)
            | [] =>
                let '(s, tr) := get_solution (solution_reply api) ticket_id description in
                (s, (calls ++ [tr])%list)
            end in
          match insert db {| t_id := ticket_id; t_description := description;
                             t_model := model; t_categories := category;
                             t_solution := solution; t_timestamp := now;
                             t_similarity_group := 1 |} with
          | Ret db' => (true, db', calls)
          | Raise _ => (false, db, calls)
          end
      end
  end.

End Analyzer.

(** ** A float conversion for running the functions on concrete replies *)

Definition digit (c : ascii) : option N :=
  let n := ord c in
  if ((48 <=? n) && (n <=? 57))%N then Some (n - 48)%N else None.

(** Reads [digits] or [digits.digits]: the digits as one integer, their
    number, and the number of those after the point. *)
Fixpoint scan_decimal (s : string) (seen_point : bool) (mant : N) (ndigits nfrac : nat)
  : option (N * nat * nat) :=
  match s with
  | EmptyString =>
      match ndigits with O => None | S _ => Some (mant, ndigits, nfrac) end
  | String c rest =>
      match digit c with
      | Some d =>
          scan_decimal rest seen_point (10 * mant + d)%N (S ndigits)
            (if seen_point then S nfrac else nfrac)
      | None =>
          if Ascii.eqb c "." && negb seen_point
          then scan_decimal rest true mant ndigits nfrac
          else None
      end
  end.

Fixpoint float_of_positive (p : positive) : float :=
  match p with
  | xH => 1%float
  | xO q => (2 * float_of_positive q)%float
  | xI q => (2 * float_of_positive q + 1)%float
  end.

Definition float_of_N (n : N) : float :=
  match n with N0 => 0%float | Npos p => float_of_positive p end.

(** Python's [float(s)] on the unsigned decimal literals of at most 15
    digits: both integers are then represented exactly and their quotient is
    the correctly rounded value. [None] on every other string, which is
    Python's answer (an exception) only for the strings that are not
    numbers. *)
Definition float_of_short_decimal (s : string) : option float :=
  match scan_decimal s false 0%N 0 0 with
  | Some (mant, ndigits, nfrac) =>
      if Nat.leb ndigits 15
      then Some (float_of_N mant / float_of_N (10 ^ N.of_nat nfrac))%float
      else None
  | None => None
  end.
(** ** Notions used to state the properties *)

Definition is_failure (o : outcome) : bool :=
  match o with Reply _ => false | _ => true end.

(** [n] attempts on [prompt], each under the timeout, with a pause of
    [pause] between two attempts. *)
Fixpoint paused_attempts (prompt : string) (pause : Z) (n : nat) : list event :=
  match n with
  | O => []
  | S m =>
      match m with
      | O => [Post prompt timeout]
      | S _ => Post prompt timeout :: Sleep pause :: paused_attempts prompt pause m
      end
  end.

Definition unreachable_as_timeout (o : outcome) : outcome :=
  match o with Unreachable => Timeout | _ => o end.

(** The settled outcomes of a fan-out: the triples (candidate identifier,
    candidate description, result) returned by the gathered tasks. *)
Definition settled_outcomes (db : list ticket) (reply : nat -> nat -> outcome)
    (new_description : string) : list (string * string * json) :=
  omap fst (gather_similarity (select_id_description db) reply new_description).

Definition candidate (o : string * string * json) : string * string := (o.1.1, o.1.2).

Definition decided (m : similar_ticket) : string * string := (sim_id m, sim_description m).

Section Parsed.

Variable py_float : string -> option float.

(** The fields of the comparison result of a settled outcome: those read
    by lines 181-191 from a result that passes the test of line 180, and
    absent for a result that does not pass it. *)
Definition parsed_fields (result : json) : option float * option string :=
  if truthy result then
    match response ← py_get result "response" (JStr EmptyString);
          str_receiver response "strip" with
    | Ret text => parse_response py_float (strip text)
    | Raise _ => (None, None)
    end
  else (None, None).

Definition parsed_score (result : json) : option float := (parsed_fields result).1.
Definition parsed_solution (result : json) : option string := (parsed_fields result).2.

(** The parsed score is present and strictly greater than the threshold. *)
Definition above_threshold (result : json) : Prop :=
  exists score, parsed_score result = Some score /\
                PrimFloat.ltb SIMILARITY_THRESHOLD score = true.

#[global] Instance above_threshold_dec result : Decision (above_threshold result).
Proof.
  unfold above_threshold.
  destruct (parsed_score result) as [score|].
  - destruct (PrimFloat.ltb SIMILARITY_THRESHOLD score) eqn:E.
    + left. exists score. split; [reflexivity | exact E].
    + right. intros (s & Hs & Hlt). injection Hs as <-. congruence.
  - right. intros (s & Hs & _). discriminate.
Defined.

(** The decision [m] is the one made from the outcome [o]. *)
Definition decision_of (m : similar_ticket) (o : string * string * json) : Prop :=
  decided m = candidate o /\
  Some (sim_similarity m) = parsed_score o.2 /\
  sim_solution m = parsed_solution o.2.

(** The parser as the specification words it: the score from the first
    line beginning with [SIMILARITY:], the solution from the first line
    beginning with [SOLUTION:]. *)
Definition spec_parse_first_line (response_text : string) : option float * option string :=
  let lines := splitlines response_text in
  (line ← List.find (startswith "SIMILARITY:") lines;
   py_float (strip (replace "SIMILARITY:" EmptyString line)),
   (fun line => strip (replace "SOLUTION:" EmptyString line))
     <$> List.find (startswith "SOLUTION:") lines).

End Parsed.

(** The single-shot retry policy as the specification words it: up to three
    attempts, a pause of one time unit after a Timeout or a BackendError
    while attempts remain, and no further attempt after Unreachable. *)
Fixpoint spec_single_shot_attempts (reply : nat -> outcome) (prompt : string)
    (attempts : list nat) : list event :=
  match attempts with
  | [] => []
  | attempt :: rest =>
      match reply attempt with
      | Reply _ | Unreachable => [Post prompt timeout]
      | Timeout | BackendError _ =>
          match rest with
          | [] => [Post prompt timeout]
          | _ :: _ =>
              Post prompt timeout :: Sleep 1 :: spec_single_shot_attempts reply prompt rest
          end
      end
  end.

(** The test of line 336 on a line of the reply. *)
Definition is_category_line (line : string) : bool :=
  startswith "category:" (lower (strip line)).

(** [x] occurs in [s]. *)
Fixpoint has_char (x : ascii) (s : string) : Prop :=
  match s with
  | EmptyString => False
  | String c rest => c = x \/ has_char x rest
  end.

(** The text after the first [sep] of [s]; empty when [s] has none. *)
Fixpoint after_first (sep : ascii) (s : string) : string :=
  match s with
  | EmptyString => EmptyString
  | String c rest => if Ascii.eqb c sep then rest else after_first sep rest
  end.

(** The category of a reply text in words: the first line that, trimmed and
    lower-cased, begins with [category:] gives the candidate, the trimmed
    text after its first colon; the first member of the vocabulary equal to
    it up to case is the category; without such a line or such a member it
    is the sentinel. *)
Definition category_of_text (text : string) : string :=
  match List.find is_category_line (splitlines text) with
  | Some line =>
      let category_candidate := strip (after_first ":" line) in
      match List.find (fun valid => String.eqb (lower category_candidate) (lower valid))
                      categories with
      | Some valid => valid
      | None => "Uncategorized"
      end
  | None => "Uncategorized"
  end.

(** The category of a decoded body in words: that of its text when the
    body is a dict whose [response] is a non-empty string, and the sentinel
    for every other body. *)
Definition category_of_reply (response_data : json) : string :=
  match response_data with
  | JObj fields =>
      match dict_lookup fields "response" with
      | Some (JStr text) => if is_empty text then "Uncategorized" else category_of_text text
      | _ => "Uncategorized"
      end
  | _ => "Uncategorized"
  end.

(** The category that an outcome other than a Timeout decides. *)
Definition category_of_outcome (o : outcome) : string :=
  match o with
  | Reply response_data => category_of_reply response_data
  | _ => "Uncategorized"
  end.

(** A body that the loop over the results reads without raising: a falsy
    value, or a dict whose [response], when it has one, is a string. *)
Definition readable (result : json) : bool :=
  negb (truthy result)
  || match result with
     | JObj fields =>
         match dict_lookup fields "response" with
         | None | Some (JStr _) => true
         | Some _ => false
         end
     | _ => false
     end.

Definition readable_outcome (o : outcome) : bool :=
  match o with Reply data => readable data | _ => true end.

(** Concrete replies. *)
Definition reply_text (text : string) : outcome :=
  Reply (JObj [("response", JStr text)]).

(** The outcomes [first] in order, then [last] for ever. *)
Definition replies (first : list outcome) (last : outcome) (attempt : nat) : outcome :=
  default last (first !! attempt).

Definition stored (ticket_id description solution : string) : ticket :=
  {| t_id := ticket_id; t_description := description; t_model := "mistral:latest";
     t_categories := "Printer"; t_solution := solution;
     t_timestamp := "2024-01-01 10:00:00"; t_similarity_group := 1 |}.

(** The end-to-end example of the specification: two stored tickets, the
    backend answering 0.9 with a solution for the first and 0.1 for the
    second. *)
Definition example_db : list ticket :=
  [stored "T1" "printer jam" "Clear tray"; stored "T2" "VPN disconnects" "Renew lease"].

Definition example_reply (i : nat) : nat -> outcome :=
  match i with
  | O => replies [] (reply_text ("SIMILARITY: 0.9" ++ nl ++ "SOLUTION: Clear tray"))
  | _ => replies [] (reply_text "SIMILARITY: 0.1")
  end.

(** Three stored tickets; the first answers 0.8 on its third attempt, the
    second fails three times, the third answers 0.95. *)
Definition example_db3 : list ticket :=
  [stored "T1" "printer jam" "Clear tray"; stored "T2" "VPN disconnects" "Renew lease";
   stored "T3" "printer offline" "Power cycle"].

Definition example_reply3 (i : nat) : nat -> outcome :=
  match i with
  | O => replies [Timeout; Unreachable]
           (reply_text ("SIMILARITY: 0.8" ++ nl ++ "SOLUTION: Clear tray"))
  | S O => replies [] Unreachable
  | _ => replies [] (reply_text ("SIMILARITY: 0.95" ++ nl ++ "SOLUTION: Power cycle"))
  end.

(** ** get_all_tickets *)

(** [s[:n]] *)
Definition py_prefix (n : nat) (s : string) : string := String.substring 0 n s.

(** [n] times the character [c]. *)
Fixpoint copies (n : nat) (c : ascii) : string :=
  match n with
  | O => EmptyString
  | S m => String c (copies m c)
  end.

(** The format [{s:<n}] of a string. *)
Definition ljust (n : nat) (s : string) : string :=
  s ++ copies (n - String.length s) " ".

(** [str(n)] of an int. *)
Definition str_of_int (n : Z) : string := NilZero.string_of_int (Z.to_int n).

Definition table_header : string :=
  "| " ++ ljust 15 "ID" ++ " | " ++ ljust 50 "Description" ++ " | " ++ ljust 15 "Model"
  ++ " | " ++ ljust 15 "Category" ++ " | " ++ ljust 30 "Solution" ++ " | "
  ++ ljust 20 "Timestamp" ++ " | " ++ ljust 15 "Similarity Group" ++ " |".

(** The line printed for a row, lines 276-283. *)
Definition table_row (t : ticket) : string :=
  let tid := if is_empty (t_id t) then EmptyString else py_prefix 15 (t_id t) in
  let desc :=
    if is_empty (t_description t) then EmptyString else py_prefix 50 (t_description t) in
  let model := if is_empty (t_model t) then EmptyString else py_prefix 15 (t_model t) in
  let categories :=
    if is_empty (t_categories t) then EmptyString else py_prefix 15 (t_categories t) in
  let solution :=
    if is_empty (t_solution t) then "No solution" else py_prefix 30 (t_solution t) in
  "| " ++ ljust 15 tid ++ " | " ++ ljust 50 desc ++ " | " ++ ljust 15 model
  ++ " | " ++ ljust 15 categories ++ " | " ++ ljust 30 solution ++ " | "
  ++ ljust 20 (t_timestamp t) ++ " | " ++ ljust 15 (str_of_int (t_similarity_group t)) ++ " |".

(** The strings printed, one for each call of [print], on the rows of the
    store. *)
Definition get_all_tickets (db : list ticket) : list string :=
  match db with
  | [] => ["No tickets found in database"]
  | _ :: _ =>
      ([(nl ++ "All Tickets:")%string; copies 100 "="; table_header;
        copies (String.length table_header) "="]
       ++ map table_row db ++ [copies 100 "="])%list
  end.

(** ** The constructor and the main block *)

Definition DEFAULT_API_URLS : list string := [EmptyString].

Definition AVAILABLE_MODELS : list string :=
  ["deepseek-r1:1.5b"; "mistral:latest"; "openchat:latest"; "llama2:latest"; "deepseek-r1:7b"].

(** The loop [for url in urls] of _find_working_api_url: [probe n] tells
    whether the [n]-th GET, under its timeout of 3, succeeds with a success
    status. The value is the returned url, or [None] when the loop ends;
    the trace lists the urls requested. *)
Fixpoint first_working (probe : nat -> bool) (n : nat) (urls : list string)
  : option string * list string :=
  match urls with
  | [] => (None, [])
  | url :: rest =>
      if probe n then (Some url, [url])
      else let '(r, tr) := first_working probe (S n) rest in (r, url :: tr)
  end.

(** [api_url] is [None] or a string; [urls[-1]] raises on an empty list. *)
Definition _find_working_api_url (probe : nat -> bool) (api_url : option string)
  : res string * list string :=
  let urls :=
    match api_url with
    | Some u => if is_empty u then DEFAULT_API_URLS else [u]
    | None => DEFAULT_API_URLS
    end in
  let '(found, tr) := first_working probe 0 urls in
  (match found with
   | Some url => Ret url
   | None =>
       match last urls with
       | Some url => Ret url
       | None => Raise (IndexError "list index out of range")
       end
   end, tr).

(** [self.DEFAULT_MODEL] as [__init__] sets it. *)
Definition init_default_model (model : option string) : string :=
  match model with
  | Some m => if is_empty m then "mistral:latest" else m
  | None => "mistral:latest"
  end.

(** The loops [while True] that read the ticket identifier and the
    description: [inputs] are the lines that [input()] returns, one after
    the other; [None] when they run out before a line is accepted (the
    program then ends on the exception of [input()]). The value is the
    accepted text and the lines not yet read. *)
Fixpoint read_nonempty (inputs : list string) : option (string * list string) :=
  match inputs with
  | [] => None
  | line :: rest =>
      let value := strip line in
      if is_empty value then read_nonempty rest else Some (value, rest)
  end.

Section MainBlock.

(** Python's [int(s)] on a string; [None] when it raises. *)
Variable py_int : string -> option Z.

Variable py_float : string -> option float.

(** The loop [while True] that selects the model. *)
Fixpoint choose_model (inputs : list string) : option (string * list string) :=
  match inputs with
  | [] => None
  | line :: rest =>
      let model_choice := strip line in
      match py_int model_choice with
      | Some n =>
          let model_idx := (n - 1)%Z in
          if (0 <=? model_idx)%Z && (model_idx <? Z.of_nat (length AVAILABLE_MODELS))%Z
          then match AVAILABLE_MODELS !! Z.to_nat model_idx with
               | Some selected_model => Some (selected_model, rest)
               | None => None
               end
          else choose_model rest
      | None => choose_model rest
      end
  end.

(** A line that the selection of the model does not accept: not an
    integer, or one outside the numbers of the list. *)
Definition rejected_choice (line : string) : Prop :=
  match py_int (strip line) with
  | Some n => (n < 1 \/ Z.of_nat (length AVAILABLE_MODELS) < n)%Z
  | None => True
  end.

(** What the main block meets: the answer to the GET of the constructor,
    the replies to the category lookup, to the comparisons of
    check_ticket_similarity and to the calls of add_ticket, and the time
    of the insertion. *)
Record world : Type := {
  w_probe : nat -> bool;
  w_category_reply : nat -> outcome;
  w_check_reply : nat -> nat -> outcome;
  w_add_api : backend;
  w_now : string
}.

(** What a run of the main block that reaches add_ticket has done. *)
Record run : Type := {
  run_model : string;
  run_api_url : res string;
  run_ticket_id : string;
  run_description : string;
  run_category : string;
  run_added : bool;
  run_db : list ticket;
  run_category_calls : list event;
  run_check_calls : list (list event);
  run_add_calls : list (list event)
}.

(** The main block, from the selection of the model to the return of
    add_ticket, on the store [db] that setup_database has opened. [None]
    when the program ends before on an exception that nothing catches: the
    end of the input, or an exception of the fan-out in
    check_ticket_similarity. A category of [None], which get_category does
    not return, is not followed further. *)
Definition main (w : world) (db : list ticket) (inputs : list string) : option run :=
  '(selected_model, inputs) ← choose_model inputs;
  let default_model := init_default_model (Some selected_model) in
  let api_url := (_find_working_api_url (w_probe w) None).1 in
  '(ticket_id, inputs) ← read_nonempty inputs;
  '(description, inputs) ← read_nonempty inputs;
  let '(category, category_calls) := get_category (w_category_reply w) ticket_id description in
  category ← category;
  let '(similar_tickets, check_calls) :=
    find_similar_tickets py_float db (w_check_reply w) description in
  match similar_tickets with
  | Raise _ => None
  | Ret _ =>
      let '(added, db', add_calls) :=
        add_ticket py_float db (w_add_api w) default_model (w_now w)
                   ticket_id description category in
      Some {| run_model := default_model; run_api_url := api_url;
              run_ticket_id := ticket_id; run_description := description;
              run_category := category; run_added := added; run_db := db';
              run_category_calls := category_calls; run_check_calls := check_calls;
              run_add_calls := add_calls |}
  end.

End MainBlock.

(** Python's [int(s)] on the strings of at most 18 decimal digits; [None]
    on every other string, which is Python's answer (an exception) only
    for the strings that are not integers. *)
Definition int_of_digits (s : string) : option Z :=
  match scan_decimal s true 0%N 0 0 with
  | Some (mant, ndigits, _) => if Nat.leb ndigits 18 then Some (Z.of_N mant) else None
  | None => None
  end.

(** The solution that add_ticket stores. *)
Definition stored_solution (similar_tickets : list similar_ticket) (generated : string) : string :=
  match similar_tickets with
  | first :: _ =>
      match sim_solution first with
      | Some s => if is_empty s then "No solution found" else s
      | None => "No solution found"
      end
  | [] => generated
  end.

(** The row that add_ticket inserts. *)
Definition new_row (ticket_id description model category solution now : string) : ticket :=
  {| t_id := ticket_id; t_description := description; t_model := model;
     t_categories := category; t_solution := solution; t_timestamp := now;
     t_similarity_group := 1 |}.

(** A session of the main block: two rejected choices, the model 2, a
    blank line, then the identifier and the description. *)
Definition example_inputs (ticket_id : string) : list string :=
  ["abc"; "9"; " 2 "; "   "; ticket_id; "printer paper jam"].

Definition example_world : world :=
  {| w_probe := fun _ => false;
     w_category_reply := replies [Timeout] (reply_text "CATEGORY: printer");
     w_check_reply := example_reply;
     w_add_api := {| similarity_reply := example_reply;
                     solution_reply := replies [] Unreachable |};
     w_now := "2024-01-02 09:30:00" |}.

Definition example_api : backend :=
  {| similarity_reply := example_reply; solution_reply := replies [] Unreachable |}.

(** A backend that fails on every request. *)
Definition backend_down : backend :=
  {| similarity_reply := fun _ => replies [Timeout] Unreachable;
     solution_reply := replies [] Unreachable |}.

(** ** Running the functions *)

Example splitlines_1 :
  splitlines ("a" ++ cr ++ nl ++ "b" ++ nl ++ nl ++ "c" ++ nl) = ["a"; "b"; EmptyString; "c"].
Proof. reflexivity. Qed.
Example splitlines_2 : splitlines ("a" ++ nl ++ cr) = ["a"; EmptyString].
Proof. reflexivity. Qed.
Example replace_1 : replace "SOLUTION:" EmptyString "SOSOLUTION:LUTION: x" = "SOLUTION: x".
Proof. reflexivity. Qed.
Example replace_2 : replace "aa" EmptyString "aaa" = "a".
Proof. reflexivity. Qed.
Example split_1 : split "," ",a," = [EmptyString; "a"; EmptyString].
Proof. reflexivity. Qed.
Example split1_1 : split1 ":" "a:b:c" = ["a"; "b:c"] /\ split1 ":" "abc" = ["abc"].
Proof. split; reflexivity. Qed.
Example strip_1 : strip ("  a b " ++ nl) = "a b".
Proof. reflexivity. Qed.
Example lower_1 : lower "CaTeGoRy: X" = "category: x".
Proof. reflexivity. Qed.
#[warning="-inexact-float"]
Example float_1 : float_of_short_decimal "0.85" = Some 0.85%float.
Proof. reflexivity. Qed.
#[warning="-inexact-float"]
Example float_2 : float_of_short_decimal "0.7" = Some SIMILARITY_THRESHOLD.
Proof. reflexivity. Qed.
Example float_3 : float_of_short_decimal "notanumber" = None.
Proof. reflexivity. Qed.

#[warning="-inexact-float"]
Example parse_response_1 :
  parse_response float_of_short_decimal ("SIMILARITY: 0.85" ++ nl ++ "SOLUTION: Restart router")
  = (Some 0.85%float, Some "Restart router").
Proof. reflexivity. Qed.
Example parse_response_2 :
  parse_response float_of_short_decimal "SOLUTION: N/A" = (None, Some "N/A").
Proof. reflexivity. Qed.
Example parse_response_3 :
  parse_response float_of_short_decimal "SIMILARITY: notanumber" = (None, None).
Proof. reflexivity. Qed.
Example get_category_1 :
  fst (get_category (replies [] (reply_text "CATEGORY: network")) "T1" "wifi down") = Some "Network".
Proof. reflexivity. Qed.
Example get_category_2 :
  fst (get_category (replies [] (reply_text "CATEGORY: Frobnication")) "T1" "wifi down")
  = Some "Uncategorized".
Proof. reflexivity. Qed.

#[warning="-inexact-float"]
Example find_similar_tickets_1 :
  (find_similar_tickets float_of_short_decimal example_db example_reply "printer paper jam").1
  = Ret [{| sim_id := "T1"; sim_description := "printer jam";
            sim_solution := Some "Clear tray"; sim_similarity := 0.9%float |}].
Proof. reflexivity. Qed.
(** The scores come in increasing order: the list is not sorted by score. *)
#[warning="-inexact-float"]
Example find_similar_tickets_2 :
  (find_similar_tickets float_of_short_decimal example_db3 example_reply3 "printer paper jam").1
  = Ret [{| sim_id := "T1"; sim_description := "printer jam";
            sim_solution := Some "Clear tray"; sim_similarity := 0.8%float |};
         {| sim_id := "T3"; sim_description := "printer offline";
            sim_solution := Some "Power cycle"; sim_similarity := 0.95%float |}].
Proof. reflexivity. Qed.
(** A score equal to the threshold does not qualify. *)
Example find_similar_tickets_3 :
  (find_similar_tickets float_of_short_decimal example_db
     (fun _ => replies [] (reply_text "SIMILARITY: 0.7")) "printer paper jam").1
  = Ret [].
Proof. reflexivity. Qed.
(** A body that is not a dict makes the loop over the results raise. *)
Example find_similar_tickets_4 :
  (find_similar_tickets float_of_short_decimal example_db
     (fun _ => replies [] (Reply (JArr [JInt 1]))) "printer paper jam").1
  = Raise (AttributeError "'list' object has no attribute 'get'").
Proof. reflexivity. Qed.
Example fetch_similarity_1 :
  fetch_similarity (replies [Timeout; Timeout] (reply_text "SIMILARITY: 0.9"))
    "printer paper jam" "T1" "printer jam"
  = (Some ("T1", "printer jam", JObj [("response", JStr "SIMILARITY: 0.9")]),
     paused_attempts (similarity_prompt "printer paper jam" "T1" "printer jam") 1 3).
Proof. reflexivity. Qed.
Example add_ticket_1 :
  add_ticket float_of_short_decimal example_db
    {| similarity_reply := example_reply; solution_reply := replies [] Unreachable |}
    "mistral:latest" "2024-01-02 09:30:00" "T3" "printer paper jam" "Printer"
  = (true,
     (example_db ++
      [{| t_id := "T3"; t_description := "printer paper jam"; t_model := "mistral:latest";
          t_categories := "Printer"; t_solution := "Clear tray";
          t_timestamp := "2024-01-02 09:30:00"; t_similarity_group := 1 |}])%list,
     map snd (gather_similarity (select_id_description example_db) example_reply
                "printer paper jam")).
Proof. reflexivity. Qed.

(** ** The response parser *)

Section ParserProperties.

Variable py_float : string -> option float.

Lemma parse_lines_snoc lines line fields :
  fold_left (parse_line py_float) (lines ++ [line])%list fields
  = parse_line py_float (fold_left (parse_line py_float) lines fields) line.
Proof. rewrite fold_left_app. reflexivity. Qed.

(** The loop over the lines leaves in each field what the last line
    beginning with its label gives. *)
Lemma parse_lines_last_line (lines : list string) :
  fold_left (parse_line py_float) lines (None, None)
  = (line ← last (List.filter (startswith "SIMILARITY:") lines);
     py_float (strip (replace "SIMILARITY:" EmptyString line)),
     (fun line => strip (replace "SOLUTION:" EmptyString line))
       <$> last (List.filter (startswith "SOLUTION:") lines)).
Proof.
  induction lines as [|line lines IH] using rev_ind.
  - reflexivity.
  - rewrite parse_lines_snoc, IH, !List.filter_app. cbn [List.filter].
    unfold parse_line.
    destruct (startswith "SIMILARITY:" line), (startswith "SOLUTION:" line);
      rewrite ?app_nil_r, ?last_snoc; reflexivity.
Qed.

(** What lines 180-191 read from a result that is a dict whose [response]
    is the text [raw]: the fields parsed from the trimmed text. *)
Lemma parsed_fields_of_text (fields : list (string * json)) (raw : string) :
  dict_lookup fields "response" = Some (JStr raw) ->
  parsed_fields py_float (JObj fields) = parse_response py_float (strip raw).
Proof.
  intros Hget. unfold parsed_fields.
  destruct fields as [|field fields]; [discriminate Hget|].
  cbn [truthy py_get mbind res_bind]. rewrite Hget. reflexivity.
Qed.

(** C2, as amended: the raw reply text is first trimmed (line 181); each
    field is then read from the last line of the trimmed text beginning
    with its label. The score is absent when that line does not convert
    or when the trimmed text has no such line, the solution is absent when
    it has no such line; the parser is a total function of the raw text. *)
Theorem parse_reply_last_line (raw : string) :
  parse_response py_float (strip raw)
  = (line ← last (List.filter (startswith "SIMILARITY:") (splitlines (strip raw)));
     py_float (strip (replace "SIMILARITY:" EmptyString line)),
     (fun line => strip (replace "SOLUTION:" EmptyString line))
       <$> last (List.filter (startswith "SOLUTION:") (splitlines (strip raw)))).
Proof.
  unfold parse_response. generalize (splitlines (strip raw)) as lines.
  intros lines. apply parse_lines_last_line.
Qed.

End ParserProperties.

(** The labels are looked for in the trimmed reply: blanks before the
    first label do not hide it, blanks before a later one do. *)
#[warning="-inexact-float"]
Example parsed_fields_1 :
  existsb (startswith "SIMILARITY:") (splitlines " SIMILARITY: 0.9") = false
  /\ parsed_fields float_of_short_decimal (JObj [("response", JStr " SIMILARITY: 0.9")])
     = (Some 0.9%float, None).
Proof. split; reflexivity. Qed.
Example parsed_fields_2 :
  parsed_fields float_of_short_decimal
    (JObj [("response", JStr ("Let me see." ++ nl ++ " SIMILARITY: 0.9"))])
  = (None, None).
Proof. reflexivity. Qed.

(** C2, as stated, fails: with two lines of each label the fields come from
    the second ones, not from the first. *)
#[warning="-inexact-float"]
Lemma parse_response_not_first_line :
  spec_parse_first_line float_of_short_decimal
    ("SIMILARITY: 0.9" ++ nl ++ "SOLUTION: a" ++ nl ++ "SIMILARITY: 0.1" ++ nl ++ "SOLUTION: b")
  = (Some 0.9%float, Some "a")
  /\ parse_response float_of_short_decimal
    ("SIMILARITY: 0.9" ++ nl ++ "SOLUTION: a" ++ nl ++ "SIMILARITY: 0.1" ++ nl ++ "SOLUTION: b")
  = (Some 0.1%float, Some "b")
  /\ parse_response float_of_short_decimal
    ("SIMILARITY: 0.9" ++ nl ++ "SOLUTION: a" ++ nl ++ "SIMILARITY: 0.1" ++ nl ++ "SOLUTION: b")
  <> spec_parse_first_line float_of_short_decimal
    ("SIMILARITY: 0.9" ++ nl ++ "SOLUTION: a" ++ nl ++ "SIMILARITY: 0.1" ++ nl ++ "SOLUTION: b").
Proof.
  split; [reflexivity | split; [reflexivity |]].
  intros H. apply (f_equal snd) in H. vm_compute in H. discriminate H.
Qed.

(** ** The solo-solution lookup *)

Lemma find_none_not_elem {A : Type} (p : A -> bool) (l : list A) :
  (forall x, x ∈ l -> p x = false) -> List.find p l = None.
Proof.
  induction l as [|a l IH]; intros H; [reflexivity|].
  cbn. rewrite (H a) by constructor.
  apply IH. intros x Hx. apply H. constructor. exact Hx.
Qed.

Lemma solution_of_body_text (fields : list (string * json)) (text : string) :
  dict_lookup fields "response" = Some (JStr text) ->
  text <> EmptyString ->
  solution_of_body (JObj fields)
  = Ret match List.find (startswith "SOLUTION:") (splitlines text) with
        | Some line => strip (replace "SOLUTION:" EmptyString line)
        | None => strip text
        end.
Proof.
  intros Hget Hne. unfold solution_of_body, py_get. rewrite Hget.
  destruct text as [|c text]; [congruence|].
  cbv [default from_option id mbind res_bind str_receiver truthy is_empty negb].
  destruct (List.find _ _); reflexivity.
Qed.

(** C10: a non-empty reply text without a line beginning with [SOLUTION:]
    is returned whole, stripped of the surrounding whitespace. *)
Theorem get_solution_whole_reply (reply : nat -> outcome) (ticket_id description : string)
    (fields : list (string * json)) (text : string) :
  reply 0 = Reply (JObj fields) ->
  dict_lookup fields "response" = Some (JStr text) ->
  text <> EmptyString ->
  (forall line, line ∈ splitlines text -> startswith "SOLUTION:" line = false) ->
  fst (get_solution reply ticket_id description) = strip text.
Proof.
  intros Hreply Hget Hne Hlines.
  unfold get_solution. rewrite Hreply. cbn [fst].
  rewrite (solution_of_body_text fields text Hget Hne).
  rewrite (find_none_not_elem _ _ Hlines). reflexivity.
Qed.

Lemma get_solution_whole_reply_witness :
  fst (get_solution (replies [] (reply_text ("  Restart the router." ++ nl ++ "Then log in again. ")))
         "T9" "vpn drops")
  = "Restart the router." ++ nl ++ "Then log in again.".
Proof.
  apply (get_solution_whole_reply _ "T9" "vpn drops"
           [("response", JStr ("  Restart the router." ++ nl ++ "Then log in again. "))]
           ("  Restart the router." ++ nl ++ "Then log in again. ")).
  - reflexivity.
  - reflexivity.
  - discriminate.
  - intros line Hin. vm_compute in Hin.
    repeat (apply elem_of_cons in Hin as [-> | Hin]; [reflexivity|]).
    apply elem_of_nil in Hin. contradiction.
Defined.

(** ** The ticket store *)

Lemma select_by_id_elem (db : list ticket) (t : ticket) :
  t ∈ db -> exists t', select_by_id db (t_id t) = Some t'.
Proof.
  unfold select_by_id. induction 1 as [t db | t u db Hin IH]; cbn.
  - rewrite String.eqb_refl. eauto.
  - destruct (String.eqb (t_id u) (t_id t)); eauto.
Qed.

Section StoreProperties.

Variable py_float : string -> option float.

(** C9: adding a ticket whose identifier is already in the store reports
    failure and leaves the store as it was; no backend call is made. *)
Theorem add_ticket_duplicate (db : list ticket) (api : backend) (model now : string)
    (ticket_id description category : string) (t : ticket) :
  t ∈ db -> t_id t = ticket_id ->
  add_ticket py_float db api model now ticket_id description category = (false, db, []).
Proof.
  intros Hin <-. unfold add_ticket.
  destruct (select_by_id_elem db t Hin) as [t' ->]. reflexivity.
Qed.

(** C4: on an empty snapshot the result is the empty list and no task is
    run, so no request is posted. *)
Theorem find_similar_tickets_empty (db : list ticket) (reply : nat -> nat -> outcome)
    (new_description : string) :
  select_id_description db = [] ->
  find_similar_tickets py_float db reply new_description = (Ret [], []).
Proof. intros H. unfold find_similar_tickets. rewrite H. reflexivity. Qed.

End StoreProperties.

Lemma add_ticket_duplicate_witness :
  add_ticket float_of_short_decimal
    [{| t_id := "T1"; t_description := "printer jam"; t_model := "mistral:latest";
        t_categories := "Printer"; t_solution := "Clear tray";
        t_timestamp := "2024-01-01 10:00:00"; t_similarity_group := 1 |}]
    {| similarity_reply := fun _ _ => reply_text "SIMILARITY: 0.9";
       solution_reply := fun _ => reply_text "SOLUTION: none" |}
    "mistral:latest" "2024-01-02 09:30:00" "T1" "printer paper jam" "Printer"
  = (false,
     [{| t_id := "T1"; t_description := "printer jam"; t_model := "mistral:latest";
         t_categories := "Printer"; t_solution := "Clear tray";
         t_timestamp := "2024-01-01 10:00:00"; t_similarity_group := 1 |}],
     []).
Proof.
  apply (add_ticket_duplicate float_of_short_decimal _ _ _ _ "T1" _ _
           {| t_id := "T1"; t_description := "printer jam"; t_model := "mistral:latest";
              t_categories := "Printer"; t_solution := "Clear tray";
              t_timestamp := "2024-01-01 10:00:00"; t_similarity_group := 1 |}).
  - apply list_elem_of_here.
  - reflexivity.
Defined.

Lemma find_similar_tickets_empty_witness :
  find_similar_tickets float_of_short_decimal [] (fun _ _ => reply_text "SIMILARITY: 0.9")
    "printer paper jam"
  = (Ret [], []).
Proof. apply find_similar_tickets_empty. reflexivity. Defined.

(** ** The comparison call and its retries *)

Ltac split_replies reply :=
  destruct (reply 0) eqn:?E0, (reply 1) eqn:?E1, (reply 2) eqn:?E2.

Lemma fetch_similarity_returns (reply : nat -> outcome)
    (new_description ticket_id existing_description : string) :
  exists result,
    (fetch_similarity reply new_description ticket_id existing_description).1
    = Some (ticket_id, existing_description, result).
Proof.
  unfold fetch_similarity.
  generalize (similarity_prompt new_description ticket_id existing_description) as p.
  intros p. split_replies reply; simpl; rewrite ?E0, ?E1, ?E2; simpl; eauto.
Qed.

Section ComparisonCall.

Variable py_float : string -> option float.

(** C3: a comparison call makes between one and three attempts, each a
    request under the timeout of 60, with a pause of 1 between two
    attempts; it goes on to the next attempt after every failure, an
    Unreachable outcome counting as a Timeout; after three failures it
    returns the triple with no result, which the loop over the results
    passes over without adding a decision and without raising. *)
Theorem fetch_similarity_retry_policy (reply : nat -> outcome)
    (new_description ticket_id existing_description : string) :
  (exists n,
      1 <= n <= 3
      /\ (fetch_similarity reply new_description ticket_id existing_description).2
         = paused_attempts
             (similarity_prompt new_description ticket_id existing_description) 1 n
      /\ (forall k, k + 1 < n -> is_failure (reply k) = true)
      /\ (n < 3 -> is_failure (reply (n - 1)) = false))
  /\ fetch_similarity (unreachable_as_timeout ∘ reply)
       new_description ticket_id existing_description
     = fetch_similarity reply new_description ticket_id existing_description
  /\ ((forall k, k < 3 -> is_failure (reply k) = true) ->
      fetch_similarity reply new_description ticket_id existing_description
      = (Some (ticket_id, existing_description, JNull),
         paused_attempts
           (similarity_prompt new_description ticket_id existing_description) 1 3)
      /\ forall rest similar_tickets,
          results_loop py_float
            ((fetch_similarity reply new_description ticket_id existing_description).1
             :: rest) similar_tickets
          = results_loop py_float rest similar_tickets).
Proof.
  unfold fetch_similarity.
  generalize (similarity_prompt new_description ticket_id existing_description) as p.
  intros p. split; [|split].
  - split_replies reply; simpl; rewrite ?E0, ?E1, ?E2; simpl;
      first
        [ exists 1; split; [lia|]; split; [reflexivity|]; split;
          [ intros k Hk; lia | intros _; simpl; rewrite ?E0; reflexivity ]
        | exists 2; split; [lia|]; split; [reflexivity|]; split;
          [ intros [|k] Hk; [rewrite E0; reflexivity | lia]
          | intros _; simpl; rewrite ?E1; reflexivity ]
        | exists 3; split; [lia|]; split; [reflexivity|]; split;
          [ intros [|[|k]] Hk; [rewrite E0; reflexivity | rewrite E1; reflexivity | lia]
          | intros Hn; lia ] ].
  - unfold compose. split_replies reply; simpl; rewrite ?E0, ?E1, ?E2; reflexivity.
  - intros Hfail.
    pose proof (Hfail 0 ltac:(lia)) as H0.
    pose proof (Hfail 1 ltac:(lia)) as H1.
    pose proof (Hfail 2 ltac:(lia)) as H2.
    split_replies reply; try discriminate; simpl; rewrite ?E0, ?E1, ?E2; simpl;
      (split; [reflexivity | intros rest similar_tickets; reflexivity]).
Qed.

End ComparisonCall.

Lemma fetch_similarity_retry_policy_witness :
  fetch_similarity (replies [Timeout; Unreachable] (BackendError "500 Server Error"))
    "printer paper jam" "T1" "printer jam"
  = (Some ("T1", "printer jam", JNull),
     paused_attempts (similarity_prompt "printer paper jam" "T1" "printer jam") 1 3).
Proof.
  apply (fetch_similarity_retry_policy float_of_short_decimal
           (replies [Timeout; Unreachable] (BackendError "500 Server Error"))
           "printer paper jam" "T1" "printer jam").
  intros [|[|[|k]]] Hk; [reflexivity | reflexivity | reflexivity | lia].
Defined.

(** ** The fan-out and the match policy *)

Lemma gather_similarity_cons (t : string * string) (tickets : list (string * string))
    (reply : nat -> nat -> outcome) (new_description : string) :
  gather_similarity (t :: tickets) reply new_description
  = fetch_similarity (reply 0) new_description t.1 t.2
    :: gather_similarity tickets (reply ∘ S) new_description.
Proof. unfold gather_similarity. rewrite imap_cons. destruct t. reflexivity. Qed.

(** Every task returns its triple: the gathered results are the settled
    outcomes, one for each ticket of the snapshot and in its order. *)
Lemma gather_similarity_settled (tickets : list (string * string))
    (reply : nat -> nat -> outcome) (new_description : string) :
  map fst (gather_similarity tickets reply new_description)
  = Some <$> omap fst (gather_similarity tickets reply new_description)
  /\ candidate <$> omap fst (gather_similarity tickets reply new_description) = tickets.
Proof.
  revert reply. induction tickets as [|[ticket_id description] tickets IH]; intros reply.
  - split; reflexivity.
  - rewrite gather_similarity_cons.
    destruct (fetch_similarity_returns (reply 0) new_description ticket_id description)
      as [result Hr].
    destruct (IH (reply ∘ S)) as [IH1 IH2].
    cbn [map omap list_omap fst snd] in *.
    destruct (fetch_similarity (reply 0) new_description ticket_id description) as [r tr].
    cbn [fst] in *. subst r. cbn [fmap list_fmap]. split.
    + f_equal. exact IH1.
    + f_equal. exact IH2.
Qed.

Section MatchPolicy.

Variable py_float : string -> option float.

Lemma results_loop_cons (ticket_id existing_description : string) (result : json)
    (rest : list (option (string * string * json))) (similar_tickets : list similar_ticket) :
  results_loop py_float (Some (ticket_id, existing_description, result) :: rest)
    similar_tickets
  = if truthy result then
      match response ← py_get result "response" (JStr EmptyString);
            str_receiver response "strip" with
      | Ret text =>
          results_loop py_float rest
            (append_if_similar similar_tickets ticket_id existing_description
               (parse_response py_float (strip text)))
      | Raise e => Raise e
      end
    else results_loop py_float rest similar_tickets.
Proof.
  cbn [results_loop]. destruct (truthy result); [|reflexivity].
  destruct (py_get result "response" (JStr EmptyString)) as [response|e]; [|reflexivity].
  cbn [mbind res_bind].
  destruct (str_receiver response "strip") as [text|e]; reflexivity.
Qed.

(** The loop adds to [similar_tickets], in the order of the outcomes, one
    decision for each outcome whose parsed score is above the threshold,
    and nothing else. *)
Lemma results_loop_decisions (settled : list (string * string * json)) :
  forall similar_tickets l,
    results_loop py_float (Some <$> settled) similar_tickets = Ret l ->
    exists added,
      l = (similar_tickets ++ added)%list
      /\ Forall2 (decision_of py_float) added
           (filter (fun o => above_threshold py_float o.2) settled).
Proof.
  induction settled as [|[[ticket_id existing_description] result] settled IH];
    intros similar_tickets l Hloop.
  - cbn in Hloop. injection Hloop as <-. exists []. rewrite app_nil_r.
    split; [reflexivity | constructor].
  - rewrite fmap_cons, results_loop_cons in Hloop.
    assert (Hfields : parsed_fields py_float result
              = if truthy result then
                  match response ← py_get result "response" (JStr EmptyString);
                        str_receiver response "strip" with
                  | Ret text => parse_response py_float (strip text)
                  | Raise _ => (None, None)
                  end
                else (None, None)) by reflexivity.
    destruct (truthy result).
    + destruct (response ← py_get result "response" (JStr EmptyString);
                str_receiver response "strip") as [text|e]; [|discriminate Hloop].
      unfold append_if_similar in Hloop.
      destruct (parse_response py_float (strip text)) as [[score|] solution].
      * destruct (PrimFloat.ltb SIMILARITY_THRESHOLD score) eqn:Hlt.
        -- destruct (IH _ _ Hloop) as (added & -> & Hadded).
           eexists (_ :: added). rewrite <- app_assoc. split; [reflexivity|].
           rewrite filter_cons_True.
           ++ constructor; [|exact Hadded].
              unfold decision_of, parsed_score, parsed_solution. cbn [snd].
              rewrite Hfields. repeat split.
           ++ exists score. unfold parsed_score. cbn [snd]. rewrite Hfields. split; [reflexivity | exact Hlt].
        -- destruct (IH _ _ Hloop) as (added & -> & Hadded).
           exists added. split; [reflexivity|].
           rewrite filter_cons_False; [exact Hadded|].
           intros (s & Hs & Hlt'). unfold parsed_score in Hs. cbn [snd] in Hs.
           rewrite Hfields in Hs. injection Hs as <-. congruence.
      * destruct (IH _ _ Hloop) as (added & -> & Hadded).
        exists added. split; [reflexivity|].
        rewrite filter_cons_False; [exact Hadded|].
        intros (s & Hs & _). unfold parsed_score in Hs. cbn [snd] in Hs.
        rewrite Hfields in Hs. discriminate Hs.
    + destruct (IH _ _ Hloop) as (added & -> & Hadded).
      exists added. split; [reflexivity|].
      rewrite filter_cons_False; [exact Hadded|].
      intros (s & Hs & _). unfold parsed_score in Hs. cbn [snd] in Hs.
      rewrite Hfields in Hs. discriminate Hs.
Qed.

Lemma find_similar_tickets_decisions (db : list ticket) (reply : nat -> nat -> outcome)
    (new_description : string) (l : list similar_ticket) :
  (find_similar_tickets py_float db reply new_description).1 = Ret l ->
  Forall2 (decision_of py_float) l
    (filter (fun o => above_threshold py_float o.2)
            (settled_outcomes db reply new_description)).
Proof.
  unfold find_similar_tickets, settled_outcomes.
  destruct (select_id_description db) as [|t tickets] eqn:Hsnap.
  - cbn. intros [= <-]. constructor.
  - cbn [fst].
    rewrite (proj1 (gather_similarity_settled (t :: tickets) reply new_description)).
    intros Hloop. apply results_loop_decisions in Hloop as (added & -> & Hadded).
    exact Hadded.
Qed.

(** C1: when the call returns a list, its elements are, one for one and
    in order, the decisions made from the settled outcomes whose parsed
    score is present and strictly greater than 0.7; every ticket of the
    snapshot has its settled outcome, so a candidate with a score of 0.7
    or less, or with no score, has no element in the list. *)
Theorem similar_iff_score_above_threshold (db : list ticket)
    (reply : nat -> nat -> outcome) (new_description : string) (l : list similar_ticket) :
  (find_similar_tickets py_float db reply new_description).1 = Ret l ->
  candidate <$> settled_outcomes db reply new_description = select_id_description db
  /\ Forall2 (decision_of py_float) l
       (filter (fun o => above_threshold py_float o.2)
               (settled_outcomes db reply new_description)).
Proof.
  intros Hl. split.
  - apply gather_similarity_settled.
  - apply find_similar_tickets_decisions. exact Hl.
Qed.

(** C8: the decisions of the returned list are in the order in which the
    snapshot enumerates their tickets. *)
Theorem similar_in_snapshot_order (db : list ticket)
    (reply : nat -> nat -> outcome) (new_description : string) (l : list similar_ticket) :
  (find_similar_tickets py_float db reply new_description).1 = Ret l ->
  decided <$> l `sublist_of` select_id_description db.
Proof.
  intros Hl. apply find_similar_tickets_decisions in Hl.
  rewrite <- (proj2 (gather_similarity_settled (select_id_description db) reply new_description)).
  fold (settled_outcomes db reply new_description).
  assert (decided <$> l
          = candidate <$> filter (fun o => above_threshold py_float o.2)
                            (settled_outcomes db reply new_description)) as ->.
  { induction Hl as [|m o l os Hmo _ IH]; [reflexivity|].
    rewrite !fmap_cons. f_equal; [apply Hmo | exact IH]. }
  apply fmap_sublist, sublist_filter.
Qed.

End MatchPolicy.

#[warning="-inexact-float"]
Lemma similar_iff_score_above_threshold_witness :
  candidate <$> settled_outcomes example_db example_reply "printer paper jam"
  = select_id_description example_db
  /\ Forall2 (decision_of float_of_short_decimal)
       [{| sim_id := "T1"; sim_description := "printer jam";
           sim_solution := Some "Clear tray"; sim_similarity := 0.9%float |}]
       (filter (fun o => above_threshold float_of_short_decimal o.2)
               (settled_outcomes example_db example_reply "printer paper jam")).
Proof.
  apply (similar_iff_score_above_threshold float_of_short_decimal
           example_db example_reply "printer paper jam").
  vm_compute. reflexivity.
Defined.

#[warning="-inexact-float"]
Lemma similar_in_snapshot_order_witness :
  decided <$>
    [{| sim_id := "T1"; sim_description := "printer jam";
        sim_solution := Some "Clear tray"; sim_similarity := 0.8%float |};
     {| sim_id := "T3"; sim_description := "printer offline";
        sim_solution := Some "Power cycle"; sim_similarity := 0.95%float |}]
  `sublist_of` select_id_description example_db3.
Proof.
  apply (similar_in_snapshot_order float_of_short_decimal
           example_db3 example_reply3 "printer paper jam").
  vm_compute. reflexivity.
Defined.

(** ** The fan-out returns a list when the bodies are readable *)

Lemma fetch_similarity_result (reply : nat -> outcome)
    (new_description ticket_id existing_description : string) (result : json) :
  (fetch_similarity reply new_description ticket_id existing_description).1
  = Some (ticket_id, existing_description, result) ->
  result = JNull \/ exists k, k < 3 /\ reply k = Reply result.
Proof.
  unfold fetch_similarity.
  generalize (similarity_prompt new_description ticket_id existing_description) as p.
  intros p. split_replies reply; simpl; rewrite ?E0, ?E1, ?E2; simpl;
    intros [= <-];
    first [ left; reflexivity
          | right; exists 0; split; [lia | assumption]
          | right; exists 1; split; [lia | assumption]
          | right; exists 2; split; [lia | assumption] ].
Qed.

Lemma settled_outcomes_readable (tickets : list (string * string))
    (reply : nat -> nat -> outcome) (new_description : string) :
  (forall i k, readable_outcome (reply i k) = true) ->
  Forall (fun o => readable o.2 = true)
         (omap fst (gather_similarity tickets reply new_description)).
Proof.
  revert reply. induction tickets as [|[ticket_id description] tickets IH]; intros reply Hr.
  - constructor.
  - rewrite gather_similarity_cons. cbn [omap list_omap fst snd].
    destruct (fetch_similarity_returns (reply 0) new_description ticket_id description)
      as [result Hres].
    rewrite Hres. constructor.
    + cbn [snd]. apply fetch_similarity_result in Hres as [-> | (k & _ & Hk)].
      * reflexivity.
      * specialize (Hr 0 k). rewrite Hk in Hr. exact Hr.
    + apply IH. intros i k. apply (Hr (S i) k).
Qed.

Section Returns.

Variable py_float : string -> option float.

Lemma results_loop_returns (settled : list (string * string * json)) :
  Forall (fun o => readable o.2 = true) settled ->
  forall similar_tickets,
    exists l, results_loop py_float (Some <$> settled) similar_tickets = Ret l.
Proof.
  induction 1 as [|[[ticket_id existing_description] result] settled Hr _ IH];
    intros similar_tickets.
  - eexists. reflexivity.
  - rewrite fmap_cons, results_loop_cons. cbn [snd] in Hr. unfold readable in Hr.
    destruct (truthy result); [|apply IH].
    cbn [negb orb] in Hr.
    destruct result as [| | | | |items|fields]; try discriminate Hr.
    cbn [py_get mbind res_bind].
    destruct (dict_lookup fields "response") as [[| | | |text| |]|];
      try discriminate Hr; cbn [default from_option id str_receiver]; apply IH.
Qed.

(** With readable bodies the call returns a list, whatever the failures
    of the attempts. *)
Lemma find_similar_tickets_returns (db : list ticket) (reply : nat -> nat -> outcome)
    (new_description : string) :
  (forall i k, readable_outcome (reply i k) = true) ->
  exists l, (find_similar_tickets py_float db reply new_description).1 = Ret l.
Proof.
  intros Hr. unfold find_similar_tickets.
  destruct (select_id_description db) as [|t tickets].
  - eexists. reflexivity.
  - cbn [fst].
    rewrite (proj1 (gather_similarity_settled (t :: tickets) reply new_description)).
    apply results_loop_returns, settled_outcomes_readable, Hr.
Qed.

End Returns.

(** ** The category classifier *)

Lemma has_char_lstrip (x : ascii) (s : string) : has_char x (lstrip s) -> has_char x s.
Proof.
  induction s as [|c s IH]; cbn [lstrip has_char]; [tauto|].
  destruct (is_space c); cbn [has_char]; tauto.
Qed.

Lemma has_char_rstrip (x : ascii) (s : string) : has_char x (rstrip s) -> has_char x s.
Proof.
  induction s as [|c s IH]; cbn [rstrip has_char]; [tauto|].
  destruct (is_space c && is_empty (rstrip s)); cbn [has_char]; tauto.
Qed.

Lemma lower_char_colon (c : ascii) : lower_char c = ":"%char -> c = ":"%char.
Proof.
  destruct c as [[] [] [] [] [] [] [] []]; vm_compute; intros H;
    first [reflexivity | discriminate H].
Qed.

Lemma has_colon_lower (s : string) : has_char ":" (lower s) -> has_char ":" s.
Proof.
  induction s as [|c s IH]; cbn [lower has_char]; [tauto|].
  intros [H | H]; [left; apply lower_char_colon, H | right; apply IH, H].
Qed.

Lemma startswith_has_char (x : ascii) (prefix s : string) :
  startswith prefix s = true -> has_char x prefix -> has_char x s.
Proof.
  revert s. induction prefix as [|p prefix IH]; intros s; cbn [has_char]; [tauto|].
  destruct s as [|c s]; cbn [startswith has_char]; [discriminate|].
  intros H. apply andb_prop in H as [Hc Hs]. apply Ascii.eqb_eq in Hc as ->.
  intros [-> | Hx]; [left; reflexivity | right; apply IH; assumption].
Qed.

Lemma is_category_line_has_colon (line : string) :
  is_category_line line = true -> has_char ":" line.
Proof.
  unfold is_category_line, strip. intros H.
  apply has_char_lstrip, has_char_rstrip, has_colon_lower.
  apply (startswith_has_char ":" _ _ H).
  cbn [has_char]. do 8 right. left. reflexivity.
Qed.

Lemma split1_has_sep (sep : ascii) (s : string) :
  has_char sep s -> exists before, split1 sep s = [before; after_first sep s].
Proof.
  induction s as [|c s IH]; cbn [split1 after_first has_char]; [tauto|].
  intros H. destruct (Ascii.eqb c sep) eqn:E.
  - eexists. reflexivity.
  - destruct H as [-> | H]; [rewrite Ascii.eqb_refl in E; discriminate E|].
    destruct (IH H) as [before ->]. eexists. reflexivity.
Qed.

(** The loop over the lines never raises: it computes the category that
    [category_of_text] describes. *)
Lemma category_of_lines_find (lines : list string) :
  category_of_lines lines
  = Ret match List.find is_category_line lines with
        | Some line => resolve_category (strip (after_first ":" line))
        | None => "Uncategorized"
        end.
Proof.
  induction lines as [|line lines IH]; [reflexivity|].
  cbn [category_of_lines List.find].
  change (startswith "category:" (lower (strip line))) with (is_category_line line).
  destruct (is_category_line line) eqn:E; [|exact IH].
  destruct (split1_has_sep ":" line (is_category_line_has_colon line E)) as [before ->].
  reflexivity.
Qed.

Lemma category_of_body_reply (response_data : json) :
  match category_of_body response_data with
  | Ret category => category
  | Raise _ => "Uncategorized"
  end = category_of_reply response_data.
Proof.
  unfold category_of_body, category_of_reply.
  destruct response_data as [| | | | |items|fields]; try reflexivity.
  cbn [py_get mbind res_bind].
  destruct (dict_lookup fields "response") as [[|[]|n|x|text|[|]|[|]]|];
    cbn [default from_option id truthy negb str_receiver no_attribute mbind res_bind];
    try reflexivity.
  - destruct (n =? 0)%Z; reflexivity.
  - destruct (PrimFloat.eqb x 0); reflexivity.
  - destruct text as [|c text]; [reflexivity|].
    cbn [is_empty negb]. rewrite category_of_lines_find. reflexivity.
Qed.

Lemma category_of_text_vocabulary (text : string) :
  category_of_text text ∈ categories \/ category_of_text text = "Uncategorized".
Proof.
  unfold category_of_text.
  destruct (List.find is_category_line (splitlines text)) as [line|]; [|right; reflexivity].
  destruct (List.find _ categories) as [valid|] eqn:E; [|right; reflexivity].
  left. apply list_elem_of_In. apply (List.find_some _ _ E).
Qed.

Lemma category_of_outcome_vocabulary (o : outcome) :
  category_of_outcome o ∈ categories \/ category_of_outcome o = "Uncategorized".
Proof.
  destruct o as [| | msg | data]; try (right; reflexivity).
  cbn [category_of_outcome]. unfold category_of_reply.
  destruct data as [| | | | |items|fields]; try (right; reflexivity).
  destruct (dict_lookup fields "response") as [[| | | |text| |]|]; try (right; reflexivity).
  destruct (is_empty text); [right; reflexivity | apply category_of_text_vocabulary].
Qed.

(** The value of get_category: the first outcome that is not a Timeout
    decides; three Timeouts give the sentinel. *)
Lemma get_category_value (reply : nat -> outcome) (ticket_id description : string) :
  (get_category reply ticket_id description).1
  = Some match reply 0 with
         | Timeout =>
             match reply 1 with
             | Timeout =>
                 match reply 2 with
                 | Timeout => "Uncategorized"
                 | o => category_of_outcome o
                 end
             | o => category_of_outcome o
             end
         | o => category_of_outcome o
         end.
Proof.
  unfold get_category. generalize (category_prompt ticket_id description) as p. intros p.
  cbn [seq max_retries category_attempts Nat.sub Nat.ltb Nat.leb].
  split_replies reply; cbn [fst category_of_outcome];
    rewrite ?category_of_body_reply; reflexivity.
Qed.

(** C5, as amended: the classifier always returns a category, a member of
    the vocabulary or the sentinel [Uncategorized]. The first attempt that
    does not time out decides: a reply whose text is a non-empty string
    gives the category of that text, which is read from the first line
    that, trimmed and lower-cased, begins with [category:], and is the first
    vocabulary member equal up to case to the trimmed text after the colon;
    a text without such a line or with a candidate outside the vocabulary,
    any other body, an Unreachable or BackendError outcome, and three
    Timeouts all give the sentinel. *)
Theorem get_category_resolution (reply : nat -> outcome) (ticket_id description : string) :
  exists category,
    (get_category reply ticket_id description).1 = Some category
    /\ (category ∈ categories \/ category = "Uncategorized")
    /\ (forall k, k < 3 -> (forall j, j < k -> reply j = Timeout) -> reply k <> Timeout ->
        category = category_of_outcome (reply k))
    /\ ((forall k, k < 3 -> reply k = Timeout) -> category = "Uncategorized").
Proof.
  rewrite get_category_value. eexists. split; [reflexivity|]. split; [|split].
  - destruct (reply 0); [|apply category_of_outcome_vocabulary..].
    destruct (reply 1); [|apply category_of_outcome_vocabulary..].
    destruct (reply 2); [right; reflexivity|apply category_of_outcome_vocabulary..].
  - intros k Hk Hpre Hne. destruct k as [|[|[|k]]]; [| | |lia].
    + destruct (reply 0); [congruence|reflexivity..].
    + rewrite (Hpre 0) by lia. destruct (reply 1); [congruence|reflexivity..].
    + rewrite (Hpre 0), (Hpre 1) by lia. destruct (reply 2); [congruence|reflexivity..].
  - intros Hall. rewrite (Hall 0), (Hall 1), (Hall 2) by lia. reflexivity.
Qed.

Lemma get_category_resolution_witness :
  exists category,
    (get_category (replies [Timeout] (reply_text ("Sure." ++ nl ++ "  Category: vpn ")))
       "T7" "tunnel drops").1
    = Some category
    /\ category = "VPN".
Proof.
  destruct (get_category_resolution
              (replies [Timeout] (reply_text ("Sure." ++ nl ++ "  Category: vpn ")))
              "T7" "tunnel drops")
    as (category & Hvalue & _ & Hdecides & _).
  exists category. split; [exact Hvalue|].
  apply (Hdecides 1).
  - lia.
  - intros [|j] Hj; [reflexivity | lia].
  - discriminate.
Defined.

(** C5, as stated, fails: a reply with no line beginning with [CATEGORY:]
    is resolved to a vocabulary member when a line begins with the label in
    another case or after blanks, and the sentinel is [Uncategorized]. *)
Lemma get_category_label_not_literal :
  existsb (startswith "CATEGORY:") (splitlines ("Sure." ++ nl ++ "  Category: vpn ")) = false
  /\ (get_category (replies [] (reply_text ("Sure." ++ nl ++ "  Category: vpn ")))
        "T7" "tunnel drops").1
     = Some "VPN"
  /\ (get_category (replies [] Unreachable) "T7" "tunnel drops").1 = Some "Uncategorized"
  /\ (get_category (replies [] Unreachable) "T7" "tunnel drops").1 <> Some "uncategorized".
Proof.
  split; [reflexivity|]. split; [reflexivity|]. split; [reflexivity|].
  intros H. vm_compute in H. discriminate H.
Qed.

(** C6, as amended: a category lookup makes between one and three attempts,
    each a request under the timeout of 60; it goes on to the next attempt
    only after a Timeout, with a pause of 5; a reply, an Unreachable outcome
    and a BackendError each end it at once. *)
Theorem get_category_retry_policy (reply : nat -> outcome) (ticket_id description : string) :
  exists n,
    1 <= n <= 3
    /\ (get_category reply ticket_id description).2
       = paused_attempts (category_prompt ticket_id description) 5 n
    /\ (forall k, k + 1 < n -> reply k = Timeout)
    /\ (n < 3 -> reply (n - 1) <> Timeout).
Proof.
  unfold get_category. generalize (category_prompt ticket_id description) as p. intros p.
  cbn [seq max_retries category_attempts Nat.sub Nat.ltb Nat.leb].
  destruct (reply 0) eqn:E0;
    [destruct (reply 1) eqn:E1; [destruct (reply 2) eqn:E2|..]|..]; cbn [snd];
    first
      [ exists 1; split; [lia|]; split; [reflexivity|]; split;
        [ intros k Hk; lia | intros _; cbn [Nat.sub]; rewrite E0; discriminate ]
      | exists 2; split; [lia|]; split; [reflexivity|]; split;
        [ intros [|k] Hk; [exact E0 | lia]
        | intros _; cbn [Nat.sub]; rewrite E1; discriminate ]
      | exists 3; split; [lia|]; split; [reflexivity|]; split;
        [ intros [|[|k]] Hk; [exact E0 | exact E1 | lia]
        | intros Hn; lia ] ].
Qed.

(** C6, as stated, fails: the pause after a Timeout is 5 and not 1, and a
    BackendError is not followed by another attempt. *)
Lemma get_category_not_spec_policy :
  (get_category (replies [Timeout] (reply_text "CATEGORY: VPN")) "T7" "tunnel drops").2
  = [Post (category_prompt "T7" "tunnel drops") 60; Sleep 5;
     Post (category_prompt "T7" "tunnel drops") 60]
  /\ spec_single_shot_attempts (replies [Timeout] (reply_text "CATEGORY: VPN"))
       (category_prompt "T7" "tunnel drops") (seq 0 max_retries)
     = [Post (category_prompt "T7" "tunnel drops") 60; Sleep 1;
        Post (category_prompt "T7" "tunnel drops") 60]
  /\ (get_category (replies [BackendError "500 Server Error"] (reply_text "CATEGORY: VPN"))
        "T7" "tunnel drops").2
     = [Post (category_prompt "T7" "tunnel drops") 60]
  /\ spec_single_shot_attempts
       (replies [BackendError "500 Server Error"] (reply_text "CATEGORY: VPN"))
       (category_prompt "T7" "tunnel drops") (seq 0 max_retries)
     = [Post (category_prompt "T7" "tunnel drops") 60; Sleep 1;
        Post (category_prompt "T7" "tunnel drops") 60]
  /\ (get_category (replies [Timeout] (reply_text "CATEGORY: VPN")) "T7" "tunnel drops").2
     <> spec_single_shot_attempts (replies [Timeout] (reply_text "CATEGORY: VPN"))
          (category_prompt "T7" "tunnel drops") (seq 0 max_retries).
Proof.
  repeat (split; [reflexivity|]).
  intros H. apply (f_equal (fun tr => tr !! 1)) in H. vm_compute in H. discriminate H.
Qed.

(** C7, as amended: a solution lookup makes exactly one attempt, a request
    under the timeout of 60, whatever its outcome: the replies that later
    requests would get play no part. A failed attempt gives, as the returned
    string, an error message. *)
Theorem get_solution_single_attempt (reply : nat -> outcome) (ticket_id description : string) :
  (get_solution reply ticket_id description).2 = [Post (solution_prompt ticket_id description) 60]
  /\ (forall reply' : nat -> outcome, reply' 0 = reply 0 ->
      get_solution reply' ticket_id description = get_solution reply ticket_id description)
  /\ (is_failure (reply 0) = true ->
      startswith "Error" (get_solution reply ticket_id description).1 = true).
Proof.
  split; [reflexivity|]. split.
  - intros reply' H. unfold get_solution. rewrite H. reflexivity.
  - unfold get_solution. destruct (reply 0); [reflexivity..|discriminate].
Qed.

Lemma get_solution_single_attempt_witness :
  startswith "Error"
    (get_solution (replies [Timeout] (reply_text "SOLUTION: Reboot")) "T7" "tunnel drops").1
  = true.
Proof.
  apply (get_solution_single_attempt
           (replies [Timeout] (reply_text "SOLUTION: Reboot")) "T7" "tunnel drops").
  reflexivity.
Defined.

(** C7, as stated, fails: after a Timeout no second attempt is made, where
    a bounded retry would make one and get the solution. *)
Lemma get_solution_no_retry :
  get_solution (replies [Timeout] (reply_text "SOLUTION: Reboot")) "T7" "tunnel drops"
  = ("Error: Request timed out. Please check if Ollama server is running.",
     [Post (solution_prompt "T7" "tunnel drops") 60])
  /\ spec_single_shot_attempts (replies [Timeout] (reply_text "SOLUTION: Reboot"))
       (solution_prompt "T7" "tunnel drops") (seq 0 max_retries)
     = [Post (solution_prompt "T7" "tunnel drops") 60; Sleep 1;
        Post (solution_prompt "T7" "tunnel drops") 60]
  /\ (get_solution (replies [Timeout] (reply_text "SOLUTION: Reboot")) "T7" "tunnel drops").2
     <> spec_single_shot_attempts (replies [Timeout] (reply_text "SOLUTION: Reboot"))
          (solution_prompt "T7" "tunnel drops") (seq 0 max_retries).
Proof.
  repeat (split; [reflexivity|]).
  intros H. apply (f_equal length) in H. vm_compute in H. discriminate H.
Qed.

(** ** Further properties: trimming *)

Lemma lstrip_head (s : string) :
  lstrip s = EmptyString \/ exists c rest, lstrip s = String c rest /\ is_space c = false.
Proof.
  induction s as [|c s IH]; cbn [lstrip]; [left; reflexivity|].
  destruct (is_space c) eqn:E; [exact IH | right; eauto].
Qed.

Lemma rstrip_rstrip (s : string) : rstrip (rstrip s) = rstrip s.
Proof.
  induction s as [|c s IH]; [reflexivity|].
  cbn [rstrip]. destruct (is_space c && is_empty (rstrip s)) eqn:E; [reflexivity|].
  cbn [rstrip]. rewrite IH, E. reflexivity.
Qed.

Lemma strip_strip (s : string) : strip (strip s) = strip s.
Proof.
  unfold strip.
  destruct (lstrip_head s) as [-> | (c & rest & -> & Hc)]; [reflexivity|].
  assert (Hr : rstrip (String c rest) = String c (rstrip rest))
    by (cbn [rstrip]; rewrite Hc; reflexivity).
  rewrite Hr. cbn [lstrip]. rewrite Hc, <- Hr. apply rstrip_rstrip.
Qed.

(** ** Further properties: the store and add_ticket *)

Lemma select_by_id_none (db : list ticket) (ticket_id : string) :
  select_by_id db ticket_id = None -> ticket_id ∉ t_id <$> db.
Proof.
  unfold select_by_id. induction db as [|t db IH]; cbn [List.find fmap list_fmap].
  - intros _ H. apply elem_of_nil in H. exact H.
  - destruct (String.eqb (t_id t) ticket_id) eqn:E; [discriminate|].
    intros Hnone Hin. apply elem_of_cons in Hin as [Heq | Hin].
    + subst ticket_id. rewrite String.eqb_refl in E. discriminate E.
    + exact (IH Hnone Hin).
Qed.

Lemma select_by_id_app_new (db : list ticket) (row : ticket) :
  select_by_id db (t_id row) = None ->
  select_by_id (db ++ [row])%list (t_id row) = Some row.
Proof.
  unfold select_by_id. induction db as [|t db IH]; cbn [List.find app].
  - intros _. rewrite String.eqb_refl. reflexivity.
  - destruct (String.eqb (t_id t) (t_id row)); [discriminate | exact IH].
Qed.

Section AddTicket.

Variable py_float : string -> option float.

Lemma add_ticket_fresh (db : list ticket) (api : backend) (model now : string)
    (ticket_id description category : string)
    (similar_tickets : list similar_ticket) (calls : list (list event)) :
  select_by_id db ticket_id = None ->
  find_similar_tickets py_float db (similarity_reply api) description
  = (Ret similar_tickets, calls) ->
  add_ticket py_float db api model now ticket_id description category
  = (true,
     (db ++ [new_row ticket_id description model category
               (stored_solution similar_tickets
                  (get_solution (solution_reply api) ticket_id description).1) now])%list,
     match similar_tickets with
     | [] => (calls ++ [(get_solution (solution_reply api) ticket_id description).2])%list
     | _ :: _ => calls
     end).
Proof.
  intros Hsel Hfind. unfold add_ticket. rewrite Hsel, Hfind.
  destruct similar_tickets as [|first rest].
  - destruct (get_solution (solution_reply api) ticket_id description) as [s tr].
    unfold insert. cbn [t_id]. rewrite Hsel. reflexivity.
  - unfold insert. cbn [t_id]. rewrite Hsel. reflexivity.
Qed.

Lemma add_ticket_raised (db : list ticket) (api : backend) (model now : string)
    (ticket_id description category : string) (e : exn) (calls : list (list event)) :
  select_by_id db ticket_id = None ->
  find_similar_tickets py_float db (similarity_reply api) description = (Raise e, calls) ->
  add_ticket py_float db api model now ticket_id description category = (false, db, calls).
Proof. intros Hsel Hfind. unfold add_ticket. rewrite Hsel, Hfind. reflexivity. Qed.

(** The three ways in which add_ticket ends. *)
Lemma add_ticket_cases (db : list ticket) (api : backend) (model now : string)
    (ticket_id description category : string) :
  (exists t, select_by_id db ticket_id = Some t
      /\ add_ticket py_float db api model now ticket_id description category = (false, db, []))
  \/ (exists e calls, select_by_id db ticket_id = None
      /\ add_ticket py_float db api model now ticket_id description category
         = (false, db, calls)
      /\ find_similar_tickets py_float db (similarity_reply api) description = (Raise e, calls))
  \/ (exists solution calls, select_by_id db ticket_id = None
      /\ add_ticket py_float db api model now ticket_id description category
         = (true, (db ++ [new_row ticket_id description model category solution now])%list,
            calls)).
Proof.
  destruct (select_by_id db ticket_id) as [t|] eqn:Hsel.
  - left. exists t. split; [reflexivity|]. unfold add_ticket. rewrite Hsel. reflexivity.
  - right.
    destruct (find_similar_tickets py_float db (similarity_reply api) description)
      as [[similar_tickets|e] calls] eqn:Hfind.
    + right. eexists _, _. split; [reflexivity|].
      apply (add_ticket_fresh _ _ _ _ _ _ _ _ _ Hsel Hfind).
    + left. exists e, calls. split; [reflexivity|]. split; [|reflexivity].
      apply (add_ticket_raised _ _ _ _ _ _ _ _ _ Hsel Hfind).
Qed.

(** X1: a call of add_ticket that reports success has found no row with
    the identifier and has appended exactly one row to the store, with the
    identifier, description, model, category and time it was given and the
    similarity group 1; the rows that were there are unchanged. *)
Theorem add_ticket_success_appends (db db' : list ticket) (api : backend) (model now : string)
    (ticket_id description category : string) (calls : list (list event)) :
  add_ticket py_float db api model now ticket_id description category = (true, db', calls) ->
  select_by_id db ticket_id = None
  /\ exists solution,
      db' = (db ++ [new_row ticket_id description model category solution now])%list.
Proof.
  intros H.
  destruct (add_ticket_cases db api model now ticket_id description category)
    as [(t & _ & E) | [(e & c & _ & E & _) | (solution & c & Hsel & E)]];
    rewrite E in H; try discriminate H.
  injection H as <- <-. split; [exact Hsel | exists solution; reflexivity].
Qed.

(** X2: a call of add_ticket that reports failure, for a known identifier
    or for an exception of the fan-out, leaves the store as it was. *)
Theorem add_ticket_failure_unchanged (db : list ticket) (api : backend) (model now : string)
    (ticket_id description category : string) :
  (add_ticket py_float db api model now ticket_id description category).1.1 = false ->
  (add_ticket py_float db api model now ticket_id description category).1.2 = db.
Proof.
  destruct (add_ticket_cases db api model now ticket_id description category)
    as [(t & _ & E) | [(e & c & _ & E & _) | (solution & c & Hsel & E)]];
    rewrite E; cbn [fst snd]; [reflexivity | reflexivity | discriminate].
Qed.

(** X3: add_ticket keeps the identifiers of the store distinct. *)
Theorem add_ticket_keeps_ids_unique (db : list ticket) (api : backend) (model now : string)
    (ticket_id description category : string) :
  NoDup (t_id <$> db) ->
  NoDup (t_id <$> (add_ticket py_float db api model now ticket_id description category).1.2).
Proof.
  intros Hnd.
  destruct (add_ticket_cases db api model now ticket_id description category)
    as [(t & _ & E) | [(e & c & _ & E & _) | (solution & c & Hsel & E)]];
    rewrite E; cbn [fst snd]; [exact Hnd | exact Hnd |].
  rewrite fmap_app. cbn [fmap list_fmap new_row t_id].
  apply NoDup_app. split; [exact Hnd|]. split.
  - intros x Hx Hx'. apply list_elem_of_singleton in Hx'. subst x.
    exact (select_by_id_none db ticket_id Hsel Hx).
  - apply NoDup_singleton.
Qed.

(** X4: after a successful add_ticket the row of the identifier is found
    in the store, and it is the row just written. *)
Theorem add_ticket_then_select (db db' : list ticket) (api : backend) (model now : string)
    (ticket_id description category : string) (calls : list (list event)) :
  add_ticket py_float db api model now ticket_id description category = (true, db', calls) ->
  exists solution,
    select_by_id db' ticket_id
    = Some (new_row ticket_id description model category solution now).
Proof.
  intros H.
  destruct (add_ticket_cases db api model now ticket_id description category)
    as [(t & _ & E) | [(e & c & _ & E & _) | (solution & c & Hsel & E)]];
    rewrite E in H; try discriminate H.
  injection H as <- <-. exists solution.
  apply (select_by_id_app_new db (new_row ticket_id description model category solution now)).
  exact Hsel.
Qed.

(** X5: after a successful add_ticket, every further add_ticket with the
    same identifier fails, whatever the backend answers, makes no backend
    call, and leaves the store as the first call left it. *)
Theorem add_ticket_twice_fails (db db' : list ticket) (api api' : backend)
    (model now model' now' : string)
    (ticket_id description category description' category' : string)
    (calls : list (list event)) :
  add_ticket py_float db api model now ticket_id description category = (true, db', calls) ->
  add_ticket py_float db' api' model' now' ticket_id description' category' = (false, db', []).
Proof.
  intros H.
  destruct (add_ticket_cases db api model now ticket_id description category)
    as [(t & _ & E) | [(e & c & _ & E & _) | (solution & c & Hsel & E)]];
    rewrite E in H; try discriminate H.
  injection H as <- <-.
  pose proof (select_by_id_app_new db
                (new_row ticket_id description model category solution now) Hsel) as Hfound.
  cbn [new_row t_id] in Hfound.
  unfold add_ticket. rewrite Hfound. reflexivity.
Qed.

End AddTicket.

(** ** Further properties: the comparison call and the fan-out *)

(** X8: a comparison call whose attempt [k], one of the three, is the first
    to succeed returns the body of that attempt, after exactly [k + 1]
    requests with a pause of 1 between them. *)
Theorem fetch_similarity_first_success (reply : nat -> outcome)
    (new_description ticket_id existing_description : string) (k : nat) (data : json) :
  k < 3 ->
  (forall j, j < k -> is_failure (reply j) = true) ->
  reply k = Reply data ->
  fetch_similarity reply new_description ticket_id existing_description
  = (Some (ticket_id, existing_description, data),
     paused_attempts (similarity_prompt new_description ticket_id existing_description)
       1 (S k)).
Proof.
  intros Hk Hfail Hdata. unfold fetch_similarity.
  generalize (similarity_prompt new_description ticket_id existing_description) as p.
  intros p. destruct k as [|[|[|k]]]; [| | |lia].
  - cbn. rewrite Hdata. reflexivity.
  - pose proof (Hfail 0 ltac:(lia)) as H0.
    cbn. destruct (reply 0); try discriminate H0; cbn; rewrite Hdata; reflexivity.
  - pose proof (Hfail 0 ltac:(lia)) as H0. pose proof (Hfail 1 ltac:(lia)) as H1.
    cbn. destruct (reply 0); try discriminate H0; cbn;
      destruct (reply 1); try discriminate H1; cbn; rewrite Hdata; reflexivity.
Qed.

Lemma fetch_similarity_first_success_witness :
  fetch_similarity (replies [Timeout; BackendError "502 Bad Gateway"]
                      (reply_text "SIMILARITY: 0.9"))
    "printer paper jam" "T1" "printer jam"
  = (Some ("T1", "printer jam", JObj [("response", JStr "SIMILARITY: 0.9")]),
     paused_attempts (similarity_prompt "printer paper jam" "T1" "printer jam") 1 3).
Proof.
  apply (fetch_similarity_first_success _ "printer paper jam" "T1" "printer jam" 2).
  - lia.
  - intros [|[|j]] Hj; [reflexivity | reflexivity | lia].
  - reflexivity.
Defined.

Lemma fetch_similarity_trace (reply : nat -> outcome)
    (new_description ticket_id existing_description : string) :
  exists n,
    1 <= n <= 3
    /\ (fetch_similarity reply new_description ticket_id existing_description).2
       = paused_attempts
           (similarity_prompt new_description ticket_id existing_description) 1 n.
Proof.
  unfold fetch_similarity.
  generalize (similarity_prompt new_description ticket_id existing_description) as p.
  intros p. split_replies reply; simpl; rewrite ?E0, ?E1, ?E2; simpl;
    first [ exists 1; split; [lia | reflexivity]
          | exists 2; split; [lia | reflexivity]
          | exists 3; split; [lia | reflexivity] ].
Qed.

Lemma gather_results_Forall (P : json -> Prop) (tickets : list (string * string))
    (reply : nat -> nat -> outcome) (new_description : string) :
  (forall i ticket_id description result,
      (fetch_similarity (reply i) new_description ticket_id description).1
      = Some (ticket_id, description, result) -> P result) ->
  Forall (fun o => P o.2) (omap fst (gather_similarity tickets reply new_description)).
Proof.
  revert reply. induction tickets as [|[ticket_id description] tickets IH]; intros reply HP.
  - constructor.
  - rewrite gather_similarity_cons. cbn [omap list_omap fst snd].
    destruct (fetch_similarity_returns (reply 0) new_description ticket_id description)
      as [result Hres].
    rewrite Hres. constructor.
    + cbn [snd]. exact (HP 0 _ _ _ Hres).
    + apply IH. intros i. apply (HP (S i)).
Qed.

(** The traces of the tasks: one for each ticket, in order. *)
Lemma gather_traces (db : list ticket) (reply : nat -> nat -> outcome)
    (new_description : string) :
  Forall2 (fun t tr =>
             exists n, 1 <= n <= 3
               /\ tr = paused_attempts
                         (similarity_prompt new_description (t_id t) (t_description t)) 1 n)
          db
          (map snd (gather_similarity (select_id_description db) reply new_description)).
Proof.
  revert reply. induction db as [|t db IH]; intros reply; [constructor|].
  change (select_id_description (t :: db))
    with ((t_id t, t_description t) :: select_id_description db).
  rewrite gather_similarity_cons. cbn [map fst snd].
  constructor; [apply fetch_similarity_trace | apply IH].
Qed.

Section FanOut.

Variable py_float : string -> option float.

(** X9: the fan-out runs one comparison call for each stored ticket and no
    other: the traces of the calls correspond one for one, in order, to the
    rows of the store, each being one to three requests that carry the
    identifier and the description of its row. *)
Theorem find_similar_tickets_one_call_per_ticket (db : list ticket)
    (reply : nat -> nat -> outcome) (new_description : string) :
  Forall2 (fun t tr =>
             exists n, 1 <= n <= 3
               /\ tr = paused_attempts
                         (similarity_prompt new_description (t_id t) (t_description t)) 1 n)
          db
          (find_similar_tickets py_float db reply new_description).2.
Proof.
  pose proof (gather_traces db reply new_description) as H.
  unfold find_similar_tickets.
  destruct (select_id_description db) as [|x tickets] eqn:E; [|exact H].
  destruct db; [constructor | discriminate E].
Qed.

Lemma results_loop_all_null (settled : list (string * string * json))
    (similar_tickets : list similar_ticket) :
  Forall (fun o => o.2 = JNull) settled ->
  results_loop py_float (Some <$> settled) similar_tickets = Ret similar_tickets.
Proof.
  induction 1 as [|[[ticket_id existing_description] result] settled Hr _ IH];
    [reflexivity|].
  cbn [snd] in Hr. subst result. rewrite fmap_cons, results_loop_cons. exact IH.
Qed.

(** X10: when every attempt of every comparison fails, the fan-out raises
    nothing and returns the empty list. *)
Theorem find_similar_tickets_backend_down (db : list ticket)
    (reply : nat -> nat -> outcome) (new_description : string) :
  (forall i k, is_failure (reply i k) = true) ->
  (find_similar_tickets py_float db reply new_description).1 = Ret [].
Proof.
  intros Hfail. unfold find_similar_tickets.
  destruct (select_id_description db) as [|t tickets]; [reflexivity|].
  cbn [fst].
  rewrite (proj1 (gather_similarity_settled (t :: tickets) reply new_description)).
  apply results_loop_all_null.
  apply (gather_results_Forall (fun result => result = JNull)).
  intros i ticket_id description result Hres.
  apply fetch_similarity_result in Hres as [-> | (k & _ & Hk)]; [reflexivity|].
  specialize (Hfail i k). rewrite Hk in Hfail. discriminate Hfail.
Qed.

Lemma results_loop_readable (settled : list (string * string * json)) :
  forall similar_tickets l,
    results_loop py_float (Some <$> settled) similar_tickets = Ret l ->
    Forall (fun o => readable o.2 = true) settled.
Proof.
  induction settled as [|[[ticket_id existing_description] result] settled IH];
    intros similar_tickets l Hloop; [constructor|].
  rewrite fmap_cons, results_loop_cons in Hloop.
  cut (readable result = true
       /\ exists acc, results_loop py_float (Some <$> settled) acc = Ret l).
  { intros [Hhead [acc Hrest]]. constructor; [exact Hhead | exact (IH _ _ Hrest)]. }
  unfold readable. destruct (truthy result) eqn:Ht; [|split; [reflexivity | eauto]].
  destruct result as [| | | | |items|fields]; try discriminate Hloop.
  cbn [py_get mbind res_bind] in Hloop. cbn [negb orb].
  destruct (dict_lookup fields "response") as [[| | | |text| |]|];
    cbn [default from_option id str_receiver no_attribute] in Hloop;
    try discriminate Hloop; (split; [reflexivity | eauto]).
Qed.

(** X11: the fan-out returns a list exactly when every settled result is
    readable: a falsy value, or a dict whose [response], when it has one, is
    a string. Any other body makes the call raise, whatever the other
    comparisons found. *)
Theorem find_similar_tickets_returns_iff_readable (db : list ticket)
    (reply : nat -> nat -> outcome) (new_description : string) :
  (exists l, (find_similar_tickets py_float db reply new_description).1 = Ret l)
  <-> Forall (fun o => readable o.2 = true) (settled_outcomes db reply new_description).
Proof.
  unfold find_similar_tickets, settled_outcomes.
  destruct (select_id_description db) as [|t tickets].
  - split; [intros _; constructor | intros _; eexists; reflexivity].
  - cbn [fst].
    rewrite (proj1 (gather_similarity_settled (t :: tickets) reply new_description)).
    split.
    + intros [l Hl]. exact (results_loop_readable _ _ _ Hl).
    + intros Hr. apply results_loop_returns. exact Hr.
Qed.

End FanOut.

(** ** Further properties: the solution that is stored *)

Lemma settled_all_null (db : list ticket) (reply : nat -> nat -> outcome)
    (new_description : string) :
  (forall i k, is_failure (reply i k) = true) ->
  Forall (fun o => o.2 = JNull) (settled_outcomes db reply new_description).
Proof.
  intros Hfail. apply (gather_results_Forall (fun result => result = JNull)).
  intros i ticket_id description result Hres.
  apply fetch_similarity_result in Hres as [-> | (k & _ & Hk)]; [reflexivity|].
  specialize (Hfail i k). rewrite Hk in Hfail. discriminate Hfail.
Qed.

Lemma get_solution_failure_message (reply : nat -> outcome) (ticket_id description : string) :
  is_failure (reply 0) = true ->
  startswith "Error" (get_solution reply ticket_id description).1 = true.
Proof. unfold get_solution. destruct (reply 0); [reflexivity..|discriminate]. Qed.

Section StoredSolution.

Variable py_float : string -> option float.

(** X6: for a new identifier, when the fan-out finds similar tickets,
    add_ticket stores the solution of the first of them, or
    [No solution found] when that one has none or an empty one, and makes
    no solution request; when the fan-out finds none, it makes one solution
    request and stores what get_solution returns. *)
Theorem add_ticket_solution_source (db : list ticket) (api : backend) (model now : string)
    (ticket_id description category : string)
    (similar_tickets : list similar_ticket) (calls : list (list event)) :
  select_by_id db ticket_id = None ->
  find_similar_tickets py_float db (similarity_reply api) description
  = (Ret similar_tickets, calls) ->
  match similar_tickets with
  | first :: _ =>
      add_ticket py_float db api model now ticket_id description category
      = (true,
         (db ++ [new_row ticket_id description model category
                   match sim_solution first with
                   | Some s => if is_empty s then "No solution found" else s
                   | None => "No solution found"
                   end now])%list,
         calls)
  | [] =>
      add_ticket py_float db api model now ticket_id description category
      = (true,
         (db ++ [new_row ticket_id description model category
                   (get_solution (solution_reply api) ticket_id description).1 now])%list,
         (calls ++ [[Post (solution_prompt ticket_id description) 60]])%list)
  end.
Proof.
  intros Hsel Hfind.
  rewrite (add_ticket_fresh py_float _ _ _ _ _ _ _ _ _ Hsel Hfind).
  destruct similar_tickets; reflexivity.
Qed.

(** X7: when the backend fails on every request, add_ticket still adds a
    ticket with a new identifier, and the solution it stores is the error
    message of get_solution. *)
Theorem add_ticket_backend_down (db : list ticket) (api : backend) (model now : string)
    (ticket_id description category : string) :
  select_by_id db ticket_id = None ->
  (forall i k, is_failure (similarity_reply api i k) = true) ->
  is_failure (solution_reply api 0) = true ->
  exists solution calls,
    add_ticket py_float db api model now ticket_id description category
    = (true, (db ++ [new_row ticket_id description model category solution now])%list, calls)
    /\ startswith "Error" solution = true.
Proof.
  intros Hsel Hsim Hsol.
  destruct (find_similar_tickets py_float db (similarity_reply api) description)
    as [found calls] eqn:Hfind.
  assert (found = Ret []) as ->.
  { change found with (found, calls).1. rewrite <- Hfind.
    unfold find_similar_tickets.
    destruct (select_id_description db) as [|t tickets] eqn:Hsnap; [reflexivity|].
    cbn [fst].
    rewrite (proj1 (gather_similarity_settled (t :: tickets) (similarity_reply api)
                      description)).
    apply results_loop_all_null. rewrite <- Hsnap.
    apply (settled_all_null db (similarity_reply api) description Hsim). }
  eexists _, _. split.
  - apply (add_ticket_fresh py_float _ _ _ _ _ _ _ _ _ Hsel Hfind).
  - cbn [stored_solution]. apply get_solution_failure_message. exact Hsol.
Qed.

End StoredSolution.

(** ** Further properties: get_solution and the parser *)

Lemma find_first_match {A : Type} (p : A -> bool) (before after : list A) (x : A) :
  (forall y, y ∈ before -> p y = false) -> p x = true ->
  List.find p (before ++ x :: after)%list = Some x.
Proof.
  intros Hb Hx. induction before as [|b before IH]; cbn [app List.find].
  - rewrite Hx. reflexivity.
  - rewrite (Hb b) by constructor. apply IH. intros y Hy. apply Hb. constructor. exact Hy.
Qed.

(** X12: on a reply text with lines beginning with [SOLUTION:],
    get_solution returns what the first of them holds: that line without
    its occurrences of the label, trimmed. *)
Theorem get_solution_first_solution_line (reply : nat -> outcome)
    (ticket_id description : string) (fields : list (string * json)) (text : string)
    (before after : list string) (line : string) :
  reply 0 = Reply (JObj fields) ->
  dict_lookup fields "response" = Some (JStr text) ->
  splitlines text = (before ++ line :: after)%list ->
  (forall l, l ∈ before -> startswith "SOLUTION:" l = false) ->
  startswith "SOLUTION:" line = true ->
  (get_solution reply ticket_id description).1
  = strip (replace "SOLUTION:" EmptyString line).
Proof.
  intros Hreply Hget Hlines Hbefore Hline.
  assert (Hne : text <> EmptyString).
  { intros ->. destruct before; discriminate Hlines. }
  unfold get_solution. rewrite Hreply. cbn [fst].
  rewrite (solution_of_body_text fields text Hget Hne), Hlines.
  rewrite (find_first_match _ before after line Hbefore Hline). reflexivity.
Qed.

Lemma get_solution_first_solution_line_witness :
  (get_solution
     (replies [] (reply_text ("REPEAT: no" ++ nl ++ "SOLUTION: Reboot " ++ nl ++ "SOLUTION: Wait")))
     "T7" "tunnel drops").1
  = "Reboot".
Proof.
  apply (get_solution_first_solution_line _ "T7" "tunnel drops"
           [("response", JStr ("REPEAT: no" ++ nl ++ "SOLUTION: Reboot " ++ nl ++ "SOLUTION: Wait"))]
           ("REPEAT: no" ++ nl ++ "SOLUTION: Reboot " ++ nl ++ "SOLUTION: Wait")
           ["REPEAT: no"] ["SOLUTION: Wait"] "SOLUTION: Reboot ").
  - reflexivity.
  - reflexivity.
  - reflexivity.
  - intros l Hl. apply list_elem_of_singleton in Hl. subst l. reflexivity.
  - reflexivity.
Defined.

(** X13: get_solution turns every unusable body into an error string: a
    dict without [response], or with a falsy one, gives the message of an
    empty response; a body that is not a dict, and a [response] that is
    truthy but not a string, give the message of the attribute error. *)
Theorem get_solution_unusable_body (reply : nat -> outcome) (ticket_id description : string)
    (data : json) :
  reply 0 = Reply data ->
  match data with
  | JObj fields =>
      match dict_lookup fields "response" with
      | None => (get_solution reply ticket_id description).1 = "Error: Empty response from API"
      | Some (JStr text) =>
          text = EmptyString ->
          (get_solution reply ticket_id description).1 = "Error: Empty response from API"
      | Some v =>
          (get_solution reply ticket_id description).1
          = if truthy v
            then "Error getting solution: '" ++ type_name v
                 ++ "' object has no attribute 'splitlines'"
            else "Error: Empty response from API"
      end
  | _ =>
      (get_solution reply ticket_id description).1
      = "Error getting solution: '" ++ type_name data ++ "' object has no attribute 'get'"
  end.
Proof.
  intros Hreply. unfold get_solution. rewrite Hreply. cbn [fst].
  destruct data as [| | | | |items|fields]; try reflexivity.
  unfold solution_of_body. cbn [py_get mbind res_bind].
  destruct (dict_lookup fields "response") as [[|[]|n|x|text|[|]|[|]]|];
    cbn [default from_option id truthy negb str_receiver no_attribute mbind res_bind
         str_of_exn type_name];
    try reflexivity.
  - destruct (n =? 0)%Z; reflexivity.
  - destruct (PrimFloat.eqb x 0); reflexivity.
  - intros ->. reflexivity.
Qed.

Lemma get_solution_unusable_body_witness :
  (get_solution (replies [] (Reply (JObj [("response", JStr EmptyString)])))
     "T7" "tunnel drops").1
  = "Error: Empty response from API".
Proof.
  apply (get_solution_unusable_body
           (replies [] (Reply (JObj [("response", JStr EmptyString)]))) "T7" "tunnel drops"
           (JObj [("response", JStr EmptyString)]) eq_refl).
  reflexivity.
Defined.

Section ParserTrimmed.

Variable py_float : string -> option float.

Lemma parse_lines_trimmed (lines : list string) :
  forall fields,
    (forall s, fields.2 = Some s -> strip s = s) ->
    forall s, (fold_left (parse_line py_float) lines fields).2 = Some s -> strip s = s.
Proof.
  induction lines as [|line lines IH]; intros fields Hf; [exact Hf|].
  cbn [fold_left]. apply IH.
  destruct fields as [score solution]. unfold parse_line. cbn [snd] in *.
  destruct (startswith "SOLUTION:" line); [|exact Hf].
  intros s [= <-]. apply strip_strip.
Qed.

(** X14: the solution that the parser reads from a reply has no
    whitespace at either end: trimming it again changes nothing. *)
Theorem parse_response_solution_trimmed (response_text s : string) :
  (parse_response py_float response_text).2 = Some s -> strip s = s.
Proof.
  unfold parse_response. apply parse_lines_trimmed. intros s' H. discriminate H.
Qed.

End ParserTrimmed.

Lemma parse_response_solution_trimmed_witness :
  strip "Restart router" = "Restart router".
Proof.
  apply (parse_response_solution_trimmed float_of_short_decimal
           ("SIMILARITY: 0.85" ++ nl ++ "SOLUTION:   Restart router  ")).
  reflexivity.
Defined.

(** ** Further properties: the vocabulary of get_category *)

Lemma categories_distinct_up_to_case :
  forallb (fun v =>
             match List.find (fun valid => String.eqb (lower v) (lower valid)) categories with
             | Some w => String.eqb w v
             | None => false
             end) categories = true.
Proof. vm_compute. reflexivity. Qed.

(** X15: a candidate equal up to case to a member of the vocabulary
    resolves to that member and to no other: no two members of the
    vocabulary are equal up to case. *)
Theorem resolve_category_up_to_case (category_candidate valid : string) :
  valid ∈ categories ->
  lower category_candidate = lower valid ->
  resolve_category category_candidate = valid.
Proof.
  intros Hin Hlower. unfold resolve_category. rewrite Hlower.
  pose proof categories_distinct_up_to_case as H.
  rewrite forallb_forall in H. specialize (H valid (proj1 (list_elem_of_In _ _) Hin)).
  destruct (List.find _ categories) as [w|]; [|discriminate H].
  apply String.eqb_eq in H. exact H.
Qed.

Lemma resolve_category_up_to_case_witness :
  resolve_category "multi-factor AUTHENTICATION" = "Multi-Factor Authentication".
Proof.
  apply resolve_category_up_to_case.
  - apply list_elem_of_In. vm_compute. do 32 right. left. reflexivity.
  - reflexivity.
Defined.

Lemma categories_round_trip :
  forallb (fun v =>
             String.eqb
               (category_of_reply (JObj [("response", JStr ("CATEGORY: " ++ v))])) v)
          categories = true.
Proof. vm_compute. reflexivity. Qed.

(** X16: every member of the vocabulary comes back from the reply that the
    prompt asks for: when the first attempt is answered [CATEGORY: ] followed
    by the member, get_category returns that member. *)
Theorem get_category_round_trip (reply : nat -> outcome) (ticket_id description : string)
    (valid : string) :
  valid ∈ categories ->
  reply 0 = reply_text ("CATEGORY: " ++ valid) ->
  (get_category reply ticket_id description).1 = Some valid.
Proof.
  intros Hin Hreply. rewrite get_category_value, Hreply.
  unfold reply_text. cbn [category_of_outcome]. f_equal.
  pose proof categories_round_trip as H.
  rewrite forallb_forall in H. specialize (H valid (proj1 (list_elem_of_In _ _) Hin)).
  apply String.eqb_eq in H. exact H.
Qed.

Lemma get_category_round_trip_witness :
  (get_category (replies [] (reply_text ("CATEGORY: " ++ "Backup/Recovery")))
     "T7" "restore fails").1
  = Some "Backup/Recovery".
Proof.
  apply get_category_round_trip.
  - apply list_elem_of_In. vm_compute. do 12 right. left. reflexivity.
  - reflexivity.
Defined.

Lemma sentinel_not_in_categories : "Uncategorized" ∉ categories.
Proof.
  intros Hin. apply list_elem_of_In in Hin.
  assert (H : existsb (String.eqb "Uncategorized") categories = true).
  { apply existsb_exists. exists "Uncategorized". split; [exact Hin | reflexivity]. }
  vm_compute in H. discriminate H.
Qed.

Lemma get_category_in_vocabulary (reply : nat -> outcome) (ticket_id description : string)
    (category : string) :
  (get_category reply ticket_id description).1 = Some category ->
  category ∈ categories \/ category = "Uncategorized".
Proof.
  rewrite get_category_value. intros [= <-].
  destruct (reply 0) as [| | |data0];
    [|right; reflexivity..|apply (category_of_outcome_vocabulary (Reply data0))].
  destruct (reply 1) as [| | |data1];
    [|right; reflexivity..|apply (category_of_outcome_vocabulary (Reply data1))].
  destruct (reply 2) as [| | |data2];
    [right; reflexivity..|apply (category_of_outcome_vocabulary (Reply data2))].
Qed.

(** X17: the value of get_category tells whether the ticket was
    classified: it is a member of the vocabulary exactly when it is not the
    sentinel [Uncategorized], which is no member. *)
Theorem get_category_member_iff_not_sentinel (reply : nat -> outcome)
    (ticket_id description category : string) :
  (get_category reply ticket_id description).1 = Some category ->
  (category ∈ categories <-> category <> "Uncategorized").
Proof.
  intros H. apply get_category_in_vocabulary in H. split.
  - intros Hin ->. exact (sentinel_not_in_categories Hin).
  - intros Hne. destruct H as [Hin | ->]; [exact Hin | congruence].
Qed.

Lemma get_category_member_iff_not_sentinel_witness :
  "VPN" ∈ categories <-> "VPN" <> "Uncategorized".
Proof.
  apply (get_category_member_iff_not_sentinel
           (replies [Timeout] (reply_text "category: vpn")) "T7" "tunnel drops").
  reflexivity.
Defined.

(** ** Further properties: the constructor and the main block *)

(** X18: the url that _find_working_api_url returns does not depend on the
    answer of the server: it is the url passed, or the empty default when
    none or an empty one is passed, after exactly one request to it. *)
Theorem find_working_api_url_ignores_probe (probe : nat -> bool) (api_url : option string) :
  _find_working_api_url probe api_url
  = (Ret match api_url with
         | Some u => u
         | None => EmptyString
         end,
     [match api_url with
      | Some u => u
      | None => EmptyString
      end]).
Proof.
  unfold _find_working_api_url.
  destruct api_url as [[|c u]|]; cbn; destruct (probe 0); reflexivity.
Qed.

Lemma read_nonempty_spec (inputs : list string) :
  match read_nonempty inputs with
  | Some (value, rest) =>
      value <> EmptyString /\ strip value = value
      /\ exists before line,
          inputs = (before ++ line :: rest)%list /\ value = strip line
          /\ Forall (fun l => strip l = EmptyString) before
  | None => Forall (fun l => strip l = EmptyString) inputs
  end.
Proof.
  induction inputs as [|line inputs IH]; cbn [read_nonempty]; [constructor|].
  destruct (strip line) as [|c v] eqn:E; cbn [is_empty].
  - destruct (read_nonempty inputs) as [[value rest]|].
    + destruct IH as (Hne & Hstrip & before & l & -> & -> & Hbefore).
      split; [exact Hne|]. split; [exact Hstrip|].
      exists (line :: before), l. split; [reflexivity|]. split; [reflexivity|].
      constructor; assumption.
    + constructor; assumption.
  - split; [discriminate|]. split; [rewrite <- E; apply strip_strip|].
    exists [], line. split; [reflexivity|]. split; [symmetry; exact E | constructor].
Qed.

(** X19: the text that the main block accepts as identifier, and as
    description, is not empty and has no whitespace at either end: it is
    the first line read that is not blank, trimmed; when every line is
    blank none is accepted. *)
Theorem read_nonempty_first_nonblank (inputs : list string) :
  match read_nonempty inputs with
  | Some (value, rest) =>
      value <> EmptyString /\ strip value = value
      /\ exists before line,
          inputs = (before ++ line :: rest)%list /\ value = strip line
          /\ Forall (fun l => strip l = EmptyString) before
  | None => Forall (fun l => strip l = EmptyString) inputs
  end.
Proof. exact (read_nonempty_spec inputs). Qed.

Section MainProperties.

Variable py_int : string -> option Z.
Variable py_float : string -> option float.

Lemma choose_model_spec (inputs : list string) :
  match choose_model py_int inputs with
  | Some (selected_model, rest) =>
      exists before line n,
        inputs = (before ++ line :: rest)%list
        /\ py_int (strip line) = Some n
        /\ (1 <= n <= Z.of_nat (length AVAILABLE_MODELS))%Z
        /\ AVAILABLE_MODELS !! Z.to_nat (n - 1) = Some selected_model
        /\ Forall (rejected_choice py_int) before
  | None => Forall (rejected_choice py_int) inputs
  end.
Proof.
  induction inputs as [|line inputs IH]; cbn [choose_model]; [constructor|].
  assert (Hcont :
    rejected_choice py_int line ->
    match choose_model py_int inputs with
    | Some (selected_model, rest) =>
        exists before l n,
          (line :: inputs) = (before ++ l :: rest)%list
          /\ py_int (strip l) = Some n
          /\ (1 <= n <= Z.of_nat (length AVAILABLE_MODELS))%Z
          /\ AVAILABLE_MODELS !! Z.to_nat (n - 1) = Some selected_model
          /\ Forall (rejected_choice py_int) before
    | None => Forall (rejected_choice py_int) (line :: inputs)
    end).
  { intros Hrej. destruct (choose_model py_int inputs) as [[m rest]|].
    - destruct IH as (before & l & n & -> & Hn & Hr & Hm & Hb).
      exists (line :: before), l, n. repeat split; try assumption; try lia.
      constructor; assumption.
    - constructor; assumption. }
  destruct (py_int (strip line)) as [n|] eqn:En.
  - destruct ((0 <=? n - 1)%Z && (n - 1 <? Z.of_nat (length AVAILABLE_MODELS))%Z) eqn:Er.
    + apply andb_prop in Er as [H0 H1].
      apply Z.leb_le in H0. apply Z.ltb_lt in H1.
      destruct (AVAILABLE_MODELS !! Z.to_nat (n - 1)) as [m|] eqn:Em.
      * exists [], line, n. repeat split; try assumption; try lia. constructor.
      * apply lookup_ge_None in Em. cbn [length AVAILABLE_MODELS] in *. lia.
    + apply Hcont. unfold rejected_choice. rewrite En.
      apply andb_false_iff in Er as [H | H];
        [apply Z.leb_gt in H | apply Z.ltb_ge in H]; lia.
  - apply Hcont. unfold rejected_choice. rewrite En. exact I.
Qed.

(** X20: the selection of the model returns, for the first line that reads
    as a number [n] of the list, the model of that number, a member of
    AVAILABLE_MODELS; every line before it is rejected, and when every line
    is rejected none is selected: the index is never out of the list. *)
Theorem choose_model_first_valid (inputs : list string) :
  match choose_model py_int inputs with
  | Some (selected_model, rest) =>
      selected_model ∈ AVAILABLE_MODELS
      /\ exists before line n,
          inputs = (before ++ line :: rest)%list
          /\ py_int (strip line) = Some n
          /\ (1 <= n <= Z.of_nat (length AVAILABLE_MODELS))%Z
          /\ AVAILABLE_MODELS !! Z.to_nat (n - 1) = Some selected_model
          /\ Forall (rejected_choice py_int) before
  | None => Forall (rejected_choice py_int) inputs
  end.
Proof.
  pose proof (choose_model_spec inputs) as H.
  destruct (choose_model py_int inputs) as [[m rest]|]; [|exact H].
  split; [|exact H].
  destruct H as (before & line & n & _ & _ & _ & Hm & _).
  apply list_elem_of_lookup. eauto.
Qed.

End MainProperties.

Lemma get_category_trace (reply : nat -> outcome) (ticket_id description : string) :
  exists n,
    1 <= n <= 3
    /\ (get_category reply ticket_id description).2
       = paused_attempts (category_prompt ticket_id description) 5 n.
Proof.
  unfold get_category. generalize (category_prompt ticket_id description) as p. intros p.
  cbn [seq max_retries category_attempts Nat.sub Nat.ltb Nat.leb].
  destruct (reply 0);
    [destruct (reply 1); [destruct (reply 2)|..]|..]; cbn [snd];
    first [ exists 1; split; [lia | reflexivity]
          | exists 2; split; [lia | reflexivity]
          | exists 3; split; [lia | reflexivity] ].
Qed.

Lemma available_models_nonempty (m : string) :
  m ∈ AVAILABLE_MODELS -> init_default_model (Some m) = m.
Proof.
  intros H. unfold AVAILABLE_MODELS in H.
  repeat (apply elem_of_cons in H as [-> | H]; [reflexivity|]).
  apply elem_of_nil in H. contradiction.
Qed.

Section MainRun.

Variable py_int : string -> option Z.
Variable py_float : string -> option float.

Lemma find_similar_tickets_calls_length (db : list ticket)
    (reply : nat -> nat -> outcome) (new_description : string) :
  length (find_similar_tickets py_float db reply new_description).2 = length db.
Proof.
  pose proof (Forall2_length _ _ _ (gather_traces db reply new_description)) as H.
  unfold find_similar_tickets.
  destruct (select_id_description db) as [|x tickets] eqn:E; [|symmetry; exact H].
  destruct db; [reflexivity | discriminate E].
Qed.

(** What a run of the main block consists of. *)
Lemma main_inv (w : world) (db : list ticket) (inputs : list string) (r : run) :
  main py_int py_float w db inputs = Some r ->
  exists selected_model rest1 rest2 rest3 similar_tickets,
    choose_model py_int inputs = Some (selected_model, rest1)
    /\ read_nonempty rest1 = Some (run_ticket_id r, rest2)
    /\ read_nonempty rest2 = Some (run_description r, rest3)
    /\ run_model r = init_default_model (Some selected_model)
    /\ get_category (w_category_reply w) (run_ticket_id r) (run_description r)
       = (Some (run_category r), run_category_calls r)
    /\ find_similar_tickets py_float db (w_check_reply w) (run_description r)
       = (Ret similar_tickets, run_check_calls r)
    /\ add_ticket py_float db (w_add_api w) (run_model r) (w_now w)
         (run_ticket_id r) (run_description r) (run_category r)
       = (run_added r, run_db r, run_add_calls r).
Proof.
  unfold main. intros H.
  destruct (choose_model py_int inputs) as [[selected_model rest1]|] eqn:E1;
    cbn [mbind option_bind] in H; [|discriminate H].
  destruct (read_nonempty rest1) as [[ticket_id rest2]|] eqn:E2;
    cbn [mbind option_bind] in H; [|discriminate H].
  destruct (read_nonempty rest2) as [[description rest3]|] eqn:E3;
    cbn [mbind option_bind] in H; [|discriminate H].
  destruct (get_category (w_category_reply w) ticket_id description)
    as [[category|] category_calls] eqn:E4; cbn [mbind option_bind] in H; [|discriminate H].
  destruct (find_similar_tickets py_float db (w_check_reply w) description)
    as [[similar_tickets|e] check_calls] eqn:E5; [|discriminate H].
  destruct (add_ticket py_float db (w_add_api w) (init_default_model (Some selected_model))
              (w_now w) ticket_id description category)
    as [[added db'] add_calls] eqn:E6.
  injection H as <-. cbn [run_model run_ticket_id run_description run_category run_added
                          run_db run_category_calls run_check_calls run_add_calls].
  exists selected_model, rest1, rest2, rest3, similar_tickets.
  repeat split; assumption || reflexivity.
Qed.

(** X21: a ticket that the main block adds is well formed: the run appends
    one row whose identifier and description are not empty and have no
    whitespace at either end, whose model is a member of AVAILABLE_MODELS
    and whose category is a member of the vocabulary or the sentinel. *)
Theorem main_adds_well_formed_row (w : world) (db : list ticket) (inputs : list string)
    (r : run) :
  main py_int py_float w db inputs = Some r ->
  run_added r = true ->
  (exists solution,
      run_db r = (db ++ [new_row (run_ticket_id r) (run_description r) (run_model r)
                           (run_category r) solution (w_now w)])%list)
  /\ run_ticket_id r <> EmptyString /\ strip (run_ticket_id r) = run_ticket_id r
  /\ run_description r <> EmptyString /\ strip (run_description r) = run_description r
  /\ run_model r ∈ AVAILABLE_MODELS
  /\ (run_category r ∈ categories \/ run_category r = "Uncategorized").
Proof.
  intros Hmain Hadded.
  apply main_inv in Hmain
    as (m & rest1 & rest2 & rest3 & sims & Hm & Hid & Hdesc & Hmodel & Hcat & _ & Hadd).
  rewrite Hadded in Hadd.
  pose proof (read_nonempty_spec rest1) as Sid. rewrite Hid in Sid.
  pose proof (read_nonempty_spec rest2) as Sdesc. rewrite Hdesc in Sdesc.
  pose proof (choose_model_spec py_int inputs) as Sm. rewrite Hm in Sm.
  destruct Sid as (Hid1 & Hid2 & _). destruct Sdesc as (Hd1 & Hd2 & _).
  destruct Sm as (before & line & n & _ & _ & _ & Hlookup & _).
  assert (Hin : m ∈ AVAILABLE_MODELS) by (apply list_elem_of_lookup; eauto).
  rewrite (available_models_nonempty m Hin) in Hmodel.
  split.
  - destruct (add_ticket_cases py_float db (w_add_api w) (run_model r) (w_now w)
                (run_ticket_id r) (run_description r) (run_category r))
      as [(t & _ & E) | [(e & c & _ & E & _) | (solution & c & _ & E)]];
      rewrite E in Hadd; try discriminate Hadd.
    injection Hadd as <- _. exists solution. reflexivity.
  - repeat split; try assumption.
    + rewrite Hmodel. exact Hin.
    + apply (get_category_in_vocabulary (w_category_reply w) (run_ticket_id r)
               (run_description r)).
      rewrite Hcat. reflexivity.
Qed.

(** X22: for an identifier that is already stored, the main block still
    makes the category lookup and runs one comparison call for each stored
    ticket before add_ticket fails; add_ticket then makes no call and the
    store is left as it was. *)
Theorem main_known_identifier (w : world) (db : list ticket) (inputs : list string)
    (r : run) (t : ticket) :
  main py_int py_float w db inputs = Some r ->
  t ∈ db -> t_id t = run_ticket_id r ->
  run_added r = false /\ run_db r = db /\ run_add_calls r = []
  /\ (exists n, 1 <= n <= 3
        /\ run_category_calls r
           = paused_attempts (category_prompt (run_ticket_id r) (run_description r)) 5 n)
  /\ length (run_check_calls r) = length db.
Proof.
  intros Hmain Hin Hid.
  apply main_inv in Hmain
    as (m & rest1 & rest2 & rest3 & sims & _ & _ & _ & _ & Hcat & Hcheck & Hadd).
  destruct (select_by_id_elem db t Hin) as [t' Hsel]. rewrite Hid in Hsel.
  unfold add_ticket in Hadd. rewrite Hsel in Hadd. injection Hadd as <- <- <-.
  repeat split.
  - destruct (get_category_trace (w_category_reply w) (run_ticket_id r) (run_description r))
      as (n & Hn & Htr).
    rewrite Hcat in Htr. exists n. split; [exact Hn | exact Htr].
  - pose proof (find_similar_tickets_calls_length db (w_check_reply w) (run_description r))
      as Hlen.
    rewrite Hcheck in Hlen. exact Hlen.
Qed.

(** X23: for a ticket that it adds, the main block runs the fan-out twice:
    check_ticket_similarity makes one comparison call for each stored
    ticket, and add_ticket makes as many again, followed by at most one
    solution request. *)
Theorem main_compares_twice (w : world) (db : list ticket) (inputs : list string) (r : run) :
  main py_int py_float w db inputs = Some r ->
  run_added r = true ->
  length (run_check_calls r) = length db
  /\ length db <= length (run_add_calls r) <= length db + 1.
Proof.
  intros Hmain Hadded.
  apply main_inv in Hmain
    as (m & rest1 & rest2 & rest3 & sims & _ & _ & _ & _ & _ & Hcheck & Hadd).
  rewrite Hadded in Hadd. split.
  - pose proof (find_similar_tickets_calls_length db (w_check_reply w) (run_description r))
      as Hlen.
    rewrite Hcheck in Hlen. exact Hlen.
  - pose proof (find_similar_tickets_calls_length db (similarity_reply (w_add_api w))
                  (run_description r)) as Hlen.
    destruct (select_by_id db (run_ticket_id r)) as [t|] eqn:Hsel.
    { unfold add_ticket in Hadd. rewrite Hsel in Hadd. discriminate Hadd. }
    destruct (find_similar_tickets py_float db (similarity_reply (w_add_api w))
                (run_description r)) as [[found|e] calls] eqn:Hfind.
    + rewrite (add_ticket_fresh py_float _ _ _ _ _ _ _ _ _ Hsel Hfind) in Hadd.
      injection Hadd as _ <-. cbn [snd] in Hlen.
      destruct found; rewrite ?length_app; cbn [length]; lia.
    + rewrite (add_ticket_raised py_float _ _ _ _ _ _ _ _ _ Hsel Hfind) in Hadd.
      discriminate Hadd.
Qed.

End MainRun.

(** ** The further properties on the examples *)

Lemma add_ticket_success_appends_witness :
  select_by_id example_db "T3" = None
  /\ exists solution,
      (example_db ++ [new_row "T3" "printer paper jam" "mistral:latest" "Printer"
                        "Clear tray" "2024-01-02 09:30:00"])%list
      = (example_db ++ [new_row "T3" "printer paper jam" "mistral:latest" "Printer"
                          solution "2024-01-02 09:30:00"])%list.
Proof.
  eapply (add_ticket_success_appends float_of_short_decimal example_db _ example_api).
  reflexivity.
Defined.

Lemma add_ticket_failure_unchanged_witness :
  (add_ticket float_of_short_decimal example_db
     {| similarity_reply := fun _ => replies [] (Reply (JArr [JInt 1]));
        solution_reply := replies [] Unreachable |}
     "mistral:latest" "2024-01-02 09:30:00" "T3" "printer paper jam" "Printer").1.2
  = example_db.
Proof. apply add_ticket_failure_unchanged. reflexivity. Defined.

Lemma add_ticket_keeps_ids_unique_witness :
  NoDup (t_id <$> (add_ticket float_of_short_decimal example_db example_api
                     "mistral:latest" "2024-01-02 09:30:00" "T3" "printer paper jam"
                     "Printer").1.2).
Proof.
  apply add_ticket_keeps_ids_unique.
  cbn. repeat constructor; rewrite ?elem_of_cons, ?elem_of_nil; intuition discriminate.
Defined.

Lemma add_ticket_then_select_witness :
  exists solution,
    select_by_id
      (example_db ++ [new_row "T3" "printer paper jam" "mistral:latest" "Printer"
                        "Clear tray" "2024-01-02 09:30:00"])%list "T3"
    = Some (new_row "T3" "printer paper jam" "mistral:latest" "Printer" solution
              "2024-01-02 09:30:00").
Proof.
  eapply (add_ticket_then_select float_of_short_decimal example_db _ example_api).
  reflexivity.
Defined.

Lemma add_ticket_twice_fails_witness :
  add_ticket float_of_short_decimal
    (example_db ++ [new_row "T3" "printer paper jam" "mistral:latest" "Printer"
                      "Clear tray" "2024-01-02 09:30:00"])%list
    backend_down "llama2:latest" "2024-01-03 11:00:00" "T3" "printer on fire" "Hardware"
  = (false,
     (example_db ++ [new_row "T3" "printer paper jam" "mistral:latest" "Printer"
                       "Clear tray" "2024-01-02 09:30:00"])%list,
     []).
Proof.
  eapply (add_ticket_twice_fails float_of_short_decimal example_db _ example_api).
  reflexivity.
Defined.

Lemma add_ticket_solution_source_witness :
  add_ticket float_of_short_decimal example_db
    {| similarity_reply := fun _ => replies [] (reply_text "SIMILARITY: 0.2");
       solution_reply := replies [] (reply_text "SOLUTION: Open the tray") |}
    "mistral:latest" "2024-01-02 09:30:00" "T3" "printer paper jam" "Printer"
  = (true,
     (example_db ++ [new_row "T3" "printer paper jam" "mistral:latest" "Printer"
                       "Open the tray" "2024-01-02 09:30:00"])%list,
     ((find_similar_tickets float_of_short_decimal example_db
         (fun _ => replies [] (reply_text "SIMILARITY: 0.2")) "printer paper jam").2
      ++ [[Post (solution_prompt "T3" "printer paper jam") 60]])%list).
Proof.
  apply (add_ticket_solution_source float_of_short_decimal example_db
           {| similarity_reply := fun _ => replies [] (reply_text "SIMILARITY: 0.2");
              solution_reply := replies [] (reply_text "SOLUTION: Open the tray") |}
           "mistral:latest" "2024-01-02 09:30:00" "T3" "printer paper jam" "Printer" []).
  - reflexivity.
  - reflexivity.
Defined.

Lemma add_ticket_backend_down_witness :
  exists solution calls,
    add_ticket float_of_short_decimal example_db backend_down
      "mistral:latest" "2024-01-02 09:30:00" "T3" "printer paper jam" "Printer"
    = (true,
       (example_db ++ [new_row "T3" "printer paper jam" "mistral:latest" "Printer"
                         solution "2024-01-02 09:30:00"])%list,
       calls)
    /\ startswith "Error" solution = true.
Proof.
  apply add_ticket_backend_down.
  - reflexivity.
  - intros i [|[|k]]; reflexivity.
  - reflexivity.
Defined.

Lemma find_similar_tickets_backend_down_witness :
  (find_similar_tickets float_of_short_decimal example_db
     (fun _ => replies [Timeout] Unreachable) "printer paper jam").1
  = Ret [].
Proof.
  apply find_similar_tickets_backend_down.
  intros i [|[|k]]; reflexivity.
Defined.

Lemma main_adds_well_formed_row_witness :
  exists r,
    main int_of_digits float_of_short_decimal example_world example_db
      (example_inputs " T3 ") = Some r
    /\ run_ticket_id r = "T3" /\ run_model r = "mistral:latest"
    /\ run_category r = "Printer"
    /\ strip (run_ticket_id r) = run_ticket_id r.
Proof.
  eexists. split; [reflexivity|]. split; [reflexivity|]. split; [reflexivity|].
  split; [reflexivity|].
  eapply (main_adds_well_formed_row int_of_digits float_of_short_decimal
            example_world example_db (example_inputs " T3 ")).
  - reflexivity.
  - reflexivity.
Defined.

Lemma main_known_identifier_witness :
  exists r,
    main int_of_digits float_of_short_decimal example_world example_db
      (example_inputs "T1") = Some r
    /\ run_added r = false /\ run_db r = example_db /\ run_add_calls r = []
    /\ (exists n, 1 <= n <= 3
          /\ run_category_calls r
             = paused_attempts (category_prompt (run_ticket_id r) (run_description r)) 5 n)
    /\ length (run_check_calls r) = length example_db.
Proof.
  eexists. split; [reflexivity|].
  eapply (main_known_identifier int_of_digits float_of_short_decimal
            example_world example_db (example_inputs "T1") _
            (stored "T1" "printer jam" "Clear tray")).
  - reflexivity.
  - apply list_elem_of_here.
  - reflexivity.
Defined.

Lemma main_compares_twice_witness :
  exists r,
    main int_of_digits float_of_short_decimal example_world example_db
      (example_inputs " T3 ") = Some r
    /\ length (run_check_calls r) = length example_db
    /\ length example_db <= length (run_add_calls r) <= length example_db + 1.
Proof.
  eexists. split; [reflexivity|].
  eapply (main_compares_twice int_of_digits float_of_short_decimal
            example_world example_db (example_inputs " T3 ")).
  - reflexivity.
  - reflexivity.
Defined.

(** ** Further properties: the listing *)

Example table_row_1 :
  table_row (stored "T1" "printer jam" "Clear tray")
  = "| T1              | printer jam                                        | mistral:latest  | Printer         | Clear tray                     | 2024-01-01 10:00:00  | 1               |".
Proof. reflexivity. Qed.
Example table_header_1 :
  table_header
  = "| ID              | Description                                        | Model           | Category        | Solution                       | Timestamp            | Similarity Group |".
Proof. reflexivity. Qed.
Example str_of_int_1 : str_of_int 0 = "0" /\ str_of_int (-12) = "-12".
Proof. split; reflexivity. Qed.

Lemma string_length_append (a b : string) :
  String.length (a ++ b) = String.length a + String.length b.
Proof. induction a as [|c a IH]; cbn [append String.length]; [reflexivity | rewrite IH; reflexivity]. Qed.

Lemma string_length_copies (n : nat) (c : ascii) : String.length (copies n c) = n.
Proof. induction n as [|n IH]; cbn [copies String.length]; [reflexivity | rewrite IH; reflexivity]. Qed.

Lemma string_length_ljust (n : nat) (s : string) :
  String.length s <= n -> String.length (ljust n s) = n.
Proof.
  intros H. unfold ljust. rewrite string_length_append, string_length_copies. lia.
Qed.

Lemma string_length_py_prefix (n : nat) (s : string) : String.length (py_prefix n s) <= n.
Proof.
  unfold py_prefix. revert s. induction n as [|n IH]; intros s.
  - destruct s; cbn; lia.
  - destruct s as [|c s]; cbn [substring String.length]; [lia|].
    specialize (IH s). lia.
Qed.

Lemma string_length_shown (n : nat) (s alt : string) :
  String.length alt <= n ->
  String.length (ljust n (if is_empty s then alt else py_prefix n s)) = n.
Proof.
  intros Halt. apply string_length_ljust.
  destruct (is_empty s); [exact Halt | apply string_length_py_prefix].
Qed.

(** X24: in the listing, the line of a row has the same width whatever the
    lengths of its fields, which are cut or padded to their columns, as
    long as the timestamp has at most 20 characters and the similarity
    group at most 15; that width is one less than the width of the header
    and of the rule drawn under it. *)
Theorem table_row_width (t : ticket) :
  String.length (t_timestamp t) <= 20 ->
  String.length (str_of_int (t_similarity_group t)) <= 15 ->
  String.length (table_row t) = 182
  /\ String.length table_header = 183
  /\ String.length (copies (String.length table_header) "=") = 183.
Proof.
  intros Hts Hgroup. split; [|split; [reflexivity | rewrite string_length_copies; reflexivity]].
  unfold table_row. rewrite !string_length_append.
  rewrite !string_length_shown by (cbn; lia).
  rewrite (string_length_ljust 20 _ Hts), (string_length_ljust 15 _ Hgroup).
  reflexivity.
Qed.

Lemma table_row_width_witness :
  String.length
    (table_row (stored "T-2024-000000017"
                  "The printer on the third floor jams whenever more than ten pages are sent"
                  EmptyString))
  = 182.
Proof.
  apply table_row_width.
  - cbn. lia.
  - cbn. lia.
Defined.
